(** * d-zone webapp build script: [packages/webapp/scripts/build.js]

    A shallow embedding of the rollup driver script of the web
    application, and the properties of its build-mode orchestration:
    entry-point resolution of the pre-bundled dependencies, the
    command-line defaults, the option records handed to rollup, the
    effect of each build pass on the output directory, and the error
    paths of the production and development builds.

    The script is a client of node ([path], [require]), yargs-parser and
    rollup with its plugins.  Their observable behaviour is modelled as
    far as the script relies on it; what the libraries decide on their
    own (module resolution, compilation) is an input of the model. *)

From Stdlib Require Import Ascii String.
From stdpp Require Import gmap strings list pretty.

Local Open Scope string_scope.

#[local] Set Warnings "-clear-no-such-hyp".
#[local] Set Default Proof Using "Type".

(** ** JavaScript values of [package.json] fields *)

Module JS.

(** A JSON value as [require] of a [package.json] yields it, seen through
    the two operations the script applies: truthiness ([||], [?:]) and
    strict equality with a string literal.  [Obj] stands for any object,
    array or function: always truthy, never equal to a string. *)
Inductive value :=
| Undefined
| Null
| Bool (b : bool)
| Num (n : Z)
| Str (s : string)
| Obj.

#[global] Instance value_eq_dec : EqDecision value.
Proof. solve_decision. Defined.

(** ToBoolean. *)
Definition truthy (v : value) : bool :=
  match v with
  | Undefined | Null => false
  | Bool b => b
  | Num n => negb (n =? 0)%Z
  | Str s => negb (String.eqb s "")
  | Obj => true
  end.

(** [a || b]. *)
Definition or (a b : value) : value := if truthy a then a else b.

(** [v === 'lit']. *)
Definition strict_eq_str (v : value) (lit : string) : bool :=
  match v with
  | Str s => String.eqb s lit
  | _ => false
  end.

(** The property names every object literal inherits from
    [Object.prototype]; [o[k]] finds a function (or the prototype
    itself) there when [o] has no own property [k]. *)
Definition objectPrototype : list string :=
  [ "constructor"; "__defineGetter__"; "__defineSetter__"; "hasOwnProperty";
    "__lookupGetter__"; "__lookupSetter__"; "isPrototypeOf";
    "propertyIsEnumerable"; "toString"; "valueOf"; "__proto__";
    "toLocaleString" ].

(** [o[k]] for an object literal [o] with own properties [o]. *)
Definition get (o : gmap string value) (k : string) : value :=
  match o !! k with
  | Some v => v
  | None => if bool_decide (k ∈ objectPrototype) then Obj else Undefined
  end.

(** [Object.fromEntries]: later entries overwrite earlier ones. *)
Definition fromEntries {A} (l : list (string * A)) : gmap string A :=
  foldl (λ m kv, <[kv.1 := kv.2]> m) ∅ l.

End JS.

(** ** Errors and results *)

Inductive error :=
| TypeError (msg : string)
| ModuleNotFound (request : string)
| BuildError (msg : string).

Inductive result (A : Type) :=
| Ok (a : A)
| Throw (e : error).
Arguments Ok {A} a.
Arguments Throw {A} e.

(** ** Metadata of a dependency: the fields [getEntryPointPath] reads *)

Module Pkg.
Record t := mk { main : JS.value; module : JS.value; type : JS.value }.
End Pkg.

(** [const ManualMap = {}] (line 120). *)
Definition ManualMap : gmap string JS.value := ∅.

(** The argument of [root] at line 128:
    [type === 'module' ? main : module || ManualMap[name] || main].
    The conditional binds weaker than [||]. *)
Definition entryField (name : string) (p : Pkg.t) : JS.value :=
  if JS.strict_eq_str (Pkg.type p) "module"
  then Pkg.main p
  else JS.or (JS.or (Pkg.module p) (JS.get ManualMap name)) (Pkg.main p).

(** ** Command line (lines 25-33)

    yargs-parser folds the aliases of each boolean option into one key;
    [argv] records what the command line says about each key ([None]: no
    alias of the key occurs).  The script's part is the [default] table. *)

Record argv := { argDEV : option bool; argTS : option bool; argVERBOSE : option bool }.

Record flags := { DEV : bool; TS : bool; VERBOSE : bool }.

Definition yargs (a : argv) : flags :=
  {| DEV := default false (argDEV a);
     TS := default false (argTS a);
     VERBOSE := default false (argVERBOSE a) |}.

(** [TS || !DEV], the "Typescript Mode" the script reports (line 41). *)
Definition typescriptMode (f : flags) : bool := TS f || negb (DEV f).

(** ** Project metadata: [require('../package.json')] (line 18) *)

Record project := { dependencies : list (string * string); main : string }.

(** [Object.keys(dependencies)] (line 24); [dependencies] lists the
    entries in key order. *)
Definition dependenciesArr (pj : project) : list string := (dependencies pj).*1.

(** ** Rollup plugins and options, as the script builds them *)

Inductive plugin :=
| clear (targets : list string)
| pluginCommonJS
| pluginNodeResolve (extensions : option (list string)) (preferBuiltins : bool)
| pluginTypescript (tsconfig : string)
| pluginSucrase (transforms : list string)
| pluginReplace (values : list (string * string))
| pluginServe (contentBase : string) (port : Z) (historyApiFallback : string)
| pluginLiveReload (watched : string)
| pluginTerser.

#[global] Instance plugin_eq_dec : EqDecision plugin.
Proof. solve_decision. Defined.

Inductive inputSpec :=
| Single (path : string)
| Named (entries : gmap string string).

Record inputOptions := {
  input : inputSpec;
  context : string;
  plugins : list plugin;
  external : list string;   (* [[]] when the key is absent *)
}.

Record outputOptions := {
  dir : string;
  format : string;
  entryFileNames : string;
  sourcemap : bool;
  exports : option string;
  paths : gmap string string;   (* empty when the key is absent *)
}.

(** ** Strings and paths *)

(** [dir/file] for the output files rollup writes under [dir]. *)
Definition in_dir (d f : string) : string := d +:+ "/" +:+ f.

(** A file path lies under directory [d]. *)
Definition under (d p : string) : bool := String.prefix (d +:+ "/") p.

(** Rollup's file-name patterns: every [[name]] in [pat] becomes [name].
    [skip] counts the characters of a placeholder still to be dropped. *)
Fixpoint renderName_go (skip : nat) (name pat : string) : string :=
  match pat with
  | EmptyString => ""
  | String c rest =>
      match skip with
      | S k => renderName_go k name rest
      | O =>
          if String.prefix "[name]" pat
          then name +:+ renderName_go 5 name rest
          else String c (renderName_go 0 name rest)
      end
  end.

Definition renderName (pat name : string) : string := renderName_go 0 name pat.

(** The part of a path after its last [/]. *)
Fixpoint basename (s : string) : string :=
  match s with
  | EmptyString => ""
  | String c rest =>
      if Ascii.eqb c "/"%char then basename rest
      else match String.index 0 "/" rest with
           | Some _ => basename rest
           | None => s
           end
  end.

Fixpoint dropExt (s : string) : string :=
  match s with
  | EmptyString => ""
  | String c rest =>
      if Ascii.eqb c "."%char && negb (bool_decide (is_Some (String.index 0 "." rest)))
      then ""
      else String c (dropExt rest)
  end.

(** The chunk name rollup derives from a single entry file: its base
    name without the extension. *)
Definition aliasName (id : string) : string :=
  match basename id with
  | EmptyString => ""
  | String c rest => String c (dropExt rest)
  end.

(** The names of the entry chunks of a build. *)
Definition chunkNames (i : inputSpec) : list string :=
  match i with
  | Single p => [aliasName p]
  | Named m => (map_to_list m).*1
  end.

(** The files [bundle.write] emits for the entry chunks: each chunk's
    file and, with [sourcemap: true], its map. *)
Definition outputFiles (names : list string) (oo : outputOptions) : gset string :=
  list_to_set
    (names ≫= λ n,
       let f := in_dir (dir oo) (renderName (entryFileNames oo) n) in
       if sourcemap oo then [f; f +:+ ".map"] else [f]).

(** ** The world the script acts on *)

(** What the script prints; colours (colorette) are left out of the
    text, and so is what the plugins print on their own. *)
Inductive line :=
| log (args : list string)
| error_ (e : error)
| time (label : string)
| timeEnd (label : string).

(** The argument of [rollup.watch] (lines 192-196). *)
Record watcher := {
  w_input : inputOptions;
  w_output : list outputOptions;
  clearScreen : bool;
}.

(** One [bundle.write]: the options the bundle was built from, the
    options it was written with, and the files it wrote. *)
Record write := {
  by_input : inputOptions;
  by_output : outputOptions;
  wrote : gset string;
}.

Record world := {
  files : gset string;        (* the files on disk *)
  console : list line;        (* oldest first *)
  exitCode : option Z;        (* set by [process.exit] *)
  watching : option watcher;  (* the watcher [rollup.watch] created *)
  writes : list write;        (* the bundles written so far, oldest first *)
}.

Definition with_files (g : gset string → gset string) (w : world) : world :=
  {| files := g (files w); console := console w;
     exitCode := exitCode w; watching := watching w; writes := writes w |}.

Definition print (l : line) (w : world) : world :=
  {| files := files w; console := console w ++ [l];
     exitCode := exitCode w; watching := watching w; writes := writes w |}.

Definition process_exit (n : Z) (w : world) : world :=
  {| files := files w; console := console w;
     exitCode := Some n; watching := watching w; writes := writes w |}.

Definition watch_with (wt : watcher) (w : world) : world :=
  {| files := files w; console := console w;
     exitCode := exitCode w; watching := Some wt; writes := writes w |}.

Definition written_by (wr : write) (w : world) : world :=
  {| files := files w ∪ wrote wr; console := console w;
     exitCode := exitCode w; watching := watching w; writes := writes w ++ [wr] |}.

(** An async function of the script: it changes the world and either
    fulfils with a value or rejects with an error. *)
Definition M (A : Type) : Type := world → result A * world.

#[global] Instance M_ret : MRet M := λ A a w, (Ok a, w).

#[global] Instance M_bind : MBind M := λ A B k m w,
  match m w with
  | (Ok a, w') => k a w'
  | (Throw e, w') => (Throw e, w')
  end.

Definition lift {A} (r : result A) : M A := λ w, (r, w).

Definition act (g : world → world) : M unit := λ w, (Ok (), g w).

Definition console_log (args : list string) : M unit := act (print (log args)).
Definition console_time (label : string) : M unit := act (print (time label)).
Definition console_timeEnd (label : string) : M unit := act (print (timeEnd label)).

Definition when (b : bool) (m : M unit) : M unit := if b then m else mret ().

(** [promise.catch(handler)] at the top level: the handler's outcome is
    the outcome of the script. *)
Definition catch (m : M unit) (handler : error → world → world) (w : world) : world :=
  match m w with
  | (Ok _, w') => w'
  | (Throw e, w') => handler e w'
  end.

(** [errorHandler] (lines 208-211). *)
Definition errorHandler (e : error) (w : world) : world :=
  process_exit 1 (print (error_ e) w).

(** ** Rollup, as far as the script observes it *)

(** What one build pass meets: the error of the compilation, if any, the
    error of writing the bundle, if any, and the files, named from the
    output directory, that rollup emits besides the entry chunks and
    their maps: the chunks it splits off for dynamic imports or for code
    that entries share, and the maps of those. *)
Record pass := {
  compileError : option error;
  writeError : option error;
  emitted : list string;
}.

Definition succeeds : pass :=
  {| compileError := None; writeError := None; emitted := [] |}.
Definition fails (e : error) : pass :=
  {| compileError := Some e; writeError := None; emitted := [] |}.

(** A path a [clear] target removes: the target or anything under it. *)
Definition covered (targets : list string) (p : string) : bool :=
  existsb (λ t, String.eqb t p || under t p) targets.

(** What a plugin removes from the disk.  Only rollup-plugin-clear
    removes anything: its targets. *)
Definition removeTargets (p : plugin) (fs : gset string) : gset string :=
  match p with
  | clear targets => filter (λ f, covered targets f = false) fs
  | _ => fs
  end.

(** The plugin calls of a [const plugins = [...]] statement.
    rollup-plugin-clear removes its targets in the call itself, before
    any pass is started. *)
Definition create (ps : list plugin) : M unit :=
  act (with_files (λ fs, foldl (λ fs p, removeTargets p fs) fs ps)).

(** The bundle [rollup.rollup] fulfils with: its entry chunks and the
    options it was built from. *)
Record bundle := { entryChunks : list string; options : inputOptions }.

Definition bundled (io : inputOptions) : bundle :=
  {| entryChunks := chunkNames (input io); options := io |}.

(** [rollup.rollup(inputOptions)]: the pass starts with the targets of
    its pipeline's [clear] removed, then the module graph is built.  The
    removal is that of the plugin call, repeated here so that a pass can
    be looked at alone, without the statement that made its plugins: the
    script writes no file between the two, and the second removes
    nothing more. *)
Definition rollup_rollup (io : inputOptions) (oc : pass) : M bundle :=
  act (with_files (λ fs, foldl (λ fs p, removeTargets p fs) fs (plugins io)));;
  match compileError oc with
  | Some e => lift (Throw e)
  | None => mret (bundled io)
  end.

(** The files rollup emits besides the entry chunks, in the output
    directory. *)
Definition emittedFiles (oc : pass) (oo : outputOptions) : gset string :=
  list_to_set (in_dir (dir oo) <$> emitted oc).

(** What [bundle.write(outputOptions)] writes. *)
Definition writing (b : bundle) (oo : outputOptions) (oc : pass) : write :=
  {| by_input := options b; by_output := oo;
     wrote := outputFiles (entryChunks b) oo ∪ emittedFiles oc oo |}.

(** [bundle.write(outputOptions)]. *)
Definition bundle_write (b : bundle) (oo : outputOptions) (oc : pass) : M unit :=
  match writeError oc with
  | Some e => lift (Throw e)
  | None => act (written_by (writing b oo oc))
  end.

(** How rollup writes the import of module [m] into a bundle: a module
    that [external] lists is not bundled, and its import is written with
    the path [output.paths] gives it, or with its own id; any other
    module is resolved and inlined. *)
Inductive rendered :=
| Inlined
| Imported (target : string).

Definition renderImport (io : inputOptions) (oo : outputOptions) (m : string) : rendered :=
  if bool_decide (m ∈ external io)
  then Imported (default m (paths oo !! m))
  else Inlined.

(** The events a watcher emits, as the listener destructures them. *)
Record event := { code : string; duration : option Z; failure : option error }.

Definition ev (c : string) : event := {| code := c; duration := None; failure := None |}.

(** [duration + 'ms']. *)
Definition durationText (d : option Z) : string :=
  match d with
  | Some n => pretty n +:+ "ms"
  | None => "undefinedms"
  end.

Definition nl : string := String "010"%char "".
Definition dq : string := String "034"%char "".
Definition esc : string := String "027"%char "".
Definition quoted (s : string) : string := dq +:+ s +:+ dq.
Definition showBool (b : bool) : string := if b then "true" else "false".

(** The literal a pipeline substitutes for a marker, if any: the value
    the first [pluginReplace] that lists the marker gives it. *)
Fixpoint lookupValue (marker : string) (vs : list (string * string)) : option string :=
  match vs with
  | [] => None
  | (k, v) :: vs' => if String.eqb k marker then Some v else lookupValue marker vs'
  end.

Fixpoint replacement (marker : string) (ps : list plugin) : option string :=
  match ps with
  | [] => None
  | pluginReplace vs :: ps' =>
      match lookupValue marker vs with
      | Some v => Some v
      | None => replacement marker ps'
      end
  | _ :: ps' => replacement marker ps'
  end.

Definition isReplace (p : plugin) : bool :=
  match p with pluginReplace _ => true | _ => false end.

Definition isClear (p : plugin) : bool :=
  match p with clear _ => true | _ => false end.

(** ** A sample project

    An application with the dependencies [lib-a] and [lib-b] and the
    entry point [src/main.ts], checked out at [/app]; [lib-a] is packaged
    as a module, [lib-b] as CommonJS. *)

Module Sample.

(** [{main: "a.js", module: "b.js", type: "module"}] *)
Definition esmPackage : Pkg.t :=
  Pkg.mk (JS.Str "a.js") (JS.Str "b.js") (JS.Str "module").

(** [{main: "a.js", type: "commonjs"}] *)
Definition cjsPackage : Pkg.t :=
  Pkg.mk (JS.Str "a.js") JS.Undefined (JS.Str "commonjs").

Definition pkgdir : string := "/app".

Definition path_join (a b : string) : string := a +:+ "/" +:+ b.

Definition require_json (request : string) : result Pkg.t :=
  if String.eqb request "lib-a/package.json" then Ok esmPackage
  else if String.eqb request "lib-b/package.json" then Ok cjsPackage
  else Throw (ModuleNotFound request).

Definition require_resolve (request : string) : result string :=
  Ok ("/app/node_modules/" +:+ request).

Definition pj : project :=
  {| dependencies := [("lib-a", "^1.0.0"); ("lib-b", "^2.0.0")];
     main := "src/main.ts" |}.

(** [node scripts/build.js] and [node scripts/build.js --dev]. *)
Definition production : argv :=
  {| argDEV := None; argTS := None; argVERBOSE := None |}.
Definition development : argv :=
  {| argDEV := Some true; argTS := None; argVERBOSE := None |}.

(** A disk that holds an artifact of an earlier build. *)
Definition stale : string := "/app/public/build/stale.js".

Definition world0 : world :=
  {| files := {[ stale ]}; console := []; exitCode := None; watching := None;
     writes := [] |}.

(** A pass of an application with one dynamically imported page. *)
Definition splitting : pass :=
  {| compileError := None; writeError := None;
     emitted := ["page-3f2a9c.js"; "page-3f2a9c.js.map"] |}.

Definition syntaxError : error := BuildError "Unexpected token".

End Sample.

(** ** A project with dependencies that do not resolve

    [lib-b] is fine; [lib-a] is of type "module" and declares only a
    module field; [constructor] is a CommonJS package named after a
    property of [Object.prototype]. *)

Module Broken.

(** [{module: "b.js", type: "module"}] *)
Definition moduleOnly : Pkg.t :=
  Pkg.mk JS.Undefined (JS.Str "b.js") (JS.Str "module").

Definition require_json (request : string) : result Pkg.t :=
  if String.eqb request "lib-a/package.json" then Ok moduleOnly
  else if String.eqb request "lib-b/package.json" then Ok Sample.cjsPackage
  else if String.eqb request "constructor/package.json" then Ok Sample.cjsPackage
  else Throw (ModuleNotFound request).

Definition pj : project :=
  {| dependencies := [("lib-b", "^2.0.0"); ("lib-a", "^1.0.0"); ("constructor", "^1.0.0")];
     main := "src/main.ts" |}.

Definition verbose : argv :=
  {| argDEV := Some true; argTS := None; argVERBOSE := Some true |}.

End Broken.

(** ** The script *)

Section Script.

(** Node's part: the package directory [path.resolve(__dirname, '..')],
    [path.join] on two strings, [require.resolve], and [require] of a
    dependency's [package.json]. *)
Variable pkgdir : string.
Variable path_join : string → string → string.
Variable require_resolve : string → result string.
Variable require_json : string → result Pkg.t.

(** [../package.json] and the command line. *)
Variable pj : project.
Variable cmd : argv.

Definition fl : flags := yargs cmd.

(** [root] (line 20): [path.resolve] of the package directory and a
    relative path in normal form (no [.], [..] or empty segment), which
    the paths the script writes out are.  The [main] field of the
    manifest is taken to be one: it only reaches the banner and the
    input of rollup, and no output file is named after it. *)
Definition root (p : string) : string := pkgdir +:+ "/" +:+ p.

Definition sourceEntryPoint : string := root (main pj).

Definition sourceExtensions : list string :=
  [".mjs"; ".js"; ".json"; ".node"; ".ts"; ".tsx"].

(** *** [productionBuild] (lines 48-86) *)

Definition productionPlugins : list plugin :=
  [ clear [root "public/build"];
    pluginCommonJS;
    pluginNodeResolve (Some sourceExtensions) false;
    pluginTypescript (root "tsconfig.json");
    pluginReplace [("process.env.NODE_ENV", quoted "production")];
    pluginTerser ].

Definition productionInput : inputOptions :=
  {| input := Single sourceEntryPoint; context := "window";
     plugins := productionPlugins; external := [] |}.

Definition productionOutput : outputOptions :=
  {| dir := root "public/build"; format := "es";
     entryFileNames := "bundle.js"; sourcemap := true;
     exports := None; paths := ∅ |}.

Definition productionBuild (oc : pass) : M unit :=
  when (VERBOSE fl) (console_log ["Started Production Build"]);;
  create productionPlugins;;
  console_time "Completed Production Build";;
  bundle ← rollup_rollup productionInput oc;
  bundle_write bundle productionOutput oc;;
  console_timeEnd "Completed Production Build".

(** *** [createDependenciesBundle] (lines 98-153) *)

Definition dependenciesPlugins : list plugin :=
  [ clear [root "public/build"];
    pluginCommonJS;
    pluginNodeResolve None false;
    pluginReplace [("process.env.NODE_ENV", quoted "development")] ].

(** The inner [root] of [getEntryPointPath] (line 115): [path.join]
    rejects an argument that is not a string. *)
Definition join_name (name : string) (v : JS.value) : result string :=
  match v with
  | JS.Str s => Ok (path_join name s)
  | _ => Throw (TypeError "ERR_INVALID_ARG_TYPE")
  end.

(** [getEntryPointPath] (lines 113-133). *)
Definition getEntryPointPath (name : string) : M string :=
  p ← lift (require_json (path_join name "package.json"));
  request ← lift (join_name name (entryField name p));
  path ← lift (require_resolve request);
  when (VERBOSE fl) (console_log ["Using " +:+ name +:+ ":"; path]);;
  mret path.

Definition dependenciesInput (entries : list (string * string)) : inputOptions :=
  {| input := Named (JS.fromEntries entries); context := "window";
     plugins := dependenciesPlugins; external := [] |}.

Definition dependenciesOutput : outputOptions :=
  {| dir := root "public/build/dependencies"; format := "es";
     entryFileNames := "[name].js"; sourcemap := true;
     exports := Some "named"; paths := ∅ |}.

Definition createDependenciesBundle (oc : pass) : M unit :=
  create dependenciesPlugins;;
  entries ← mapM (λ name, path ← getEntryPointPath name; mret (name, path))
                 (dependenciesArr pj);
  bundle ← rollup_rollup (dependenciesInput entries) oc;
  bundle_write bundle dependenciesOutput oc.

(** *** [startWatchMode] (lines 155-205) *)

Definition watchPlugins : list plugin :=
  [ pluginCommonJS;
    pluginNodeResolve (Some sourceExtensions) false;
    (if TS fl then pluginTypescript (root "tsconfig.json")
     else pluginSucrase ["typescript"; "jsx"]);
    pluginServe (root "public") 5000 "/index.html";
    pluginLiveReload (root "public") ].

Definition watchInput : inputOptions :=
  {| input := Single sourceEntryPoint; context := "window";
     plugins := watchPlugins; external := dependenciesArr pj |}.

(** The table of line 185: [[k, `./dependencies/${k}.js`]]. *)
Definition pathTable : gmap string string :=
  JS.fromEntries ((λ k, (k, "./dependencies/" +:+ k +:+ ".js")) <$> dependenciesArr pj).

Definition watchOutput : outputOptions :=
  {| dir := root "public/build"; format := "es";
     entryFileNames := "bundle.js"; sourcemap := true;
     exports := None; paths := pathTable |}.

Definition theWatcher : watcher :=
  {| w_input := watchInput; w_output := [watchOutput]; clearScreen := false |}.

(** The listener of lines 198-204. *)
Definition onEvent (e : event) : M unit :=
  when (String.eqb (code e) "BUNDLE_START") (console_log [nl +:+ "Found Changes"]);;
  when (String.eqb (code e) "BUNDLE_END")
       (console_log ["Completed build: " +:+ durationText (duration e)]).

Definition startWatchMode : M unit :=
  create watchPlugins;;
  act (watch_with theWatcher).

(** *** [developmentBuild] (lines 88-96) *)

Definition developmentBuild (oc : pass) : M unit :=
  when (VERBOSE fl) (console_log ["Started Development Build"]);;
  console_time "Created Dependencies Bundle";;
  createDependenciesBundle oc;;
  console_timeEnd "Created Dependencies Bundle";;
  when (VERBOSE fl) (console_log [nl +:+ "Starting Watch Mode"]);;
  startWatchMode.

(** *** The top level (lines 36-46) *)

Definition banner (w : world) : world :=
  let w := print (log [esc +:+ "c"]) w in
  if VERBOSE fl then
    print (log [ "Current Configuration:" +:+ nl;
                 " Development Mode - " +:+ showBool (DEV fl) +:+ nl;
                 " Typescript Mode - " +:+ showBool (typescriptMode fl) +:+ nl;
                 " Source Entry Point - " +:+ sourceEntryPoint +:+ nl ]) w
  else w.

Definition script (oc : pass) (w : world) : world :=
  let w := banner w in
  if DEV fl then catch (developmentBuild oc) errorHandler w
  else catch (productionBuild oc) errorHandler w.

(** *** The watcher at work

    One rebuild of the watcher: rollup announces the bundle, builds it
    with the watcher's options and writes every output, then reports the
    end of the bundle or the error to the listener, and the end of the
    run.  The error is not rethrown: it only reaches the script as an
    [ERROR] event. *)
Definition tell (e : event) (w : world) : world := (onEvent e w).2.

Definition rebuild (wt : watcher) (oc : pass) : M unit :=
  bundle ← rollup_rollup (w_input wt) oc;
  mapM (λ oo, bundle_write bundle oo oc) (w_output wt);;
  mret ().

Definition watchPass (wt : watcher) (oc : pass) (ms : Z) (w : world) : world :=
  let w := tell (ev "START") w in
  let w := tell (ev "BUNDLE_START") w in
  match rebuild wt oc w with
  | (Ok _, w') =>
      tell (ev "END")
        (tell {| code := "BUNDLE_END"; duration := Some ms; failure := None |} w')
  | (Throw e, w') =>
      tell (ev "END")
        (tell {| code := "ERROR"; duration := None; failure := Some e |} w')
  end.

(** The passes of the watcher that [startWatchMode] created, if the
    process is still alive. *)
Definition watchLoop (passes : list (pass * Z)) (w : world) : world :=
  match watching w, exitCode w with
  | Some wt, None => foldl (λ w p, watchPass wt p.1 p.2 w) w passes
  | _, _ => w
  end.

(** The static type check of the application bundle: whether the
    pipeline of the mode holds the TypeScript plugin. *)
Definition applicationPlugins : list plugin :=
  if DEV fl then watchPlugins else productionPlugins.

Definition isTypescript (p : plugin) : bool :=
  match p with pluginTypescript _ => true | _ => false end.

Definition staticTypeCheck : bool := existsb isTypescript applicationPlugins.

(** *** Reference notions for the properties *)

(** The resolution order read as a cascade: the first rule that
    applies gives the entry. *)
Definition firstMatch (name : string) (p : Pkg.t) : JS.value :=
  if decide (Pkg.type p = JS.Str "module") then Pkg.main p
  else if JS.truthy (Pkg.module p) then Pkg.module p
  else if JS.truthy (JS.get ManualMap name) then JS.get ManualMap name
  else Pkg.main p.

(** A field that is left out or holds a path. *)
Definition pathOrAbsent (v : JS.value) : Prop :=
  v = JS.Undefined ∨ ∃ s, v = JS.Str s.

(** The value of [getEntryPointPath name], apart from its logging. *)
Definition entryResult (name : string) : result string :=
  match require_json (path_join name "package.json") with
  | Throw e => Throw e
  | Ok p =>
      match join_name name (entryField name p) with
      | Throw e => Throw e
      | Ok request => require_resolve request
      end
  end.

(** The entries of the pre-bundle's input, resolved in order up to the
    first failure. *)
Fixpoint entriesResult (names : list string) : result (list (string * string)) :=
  match names with
  | [] => Ok []
  | name :: names' =>
      match entryResult name with
      | Throw e => Throw e
      | Ok path =>
          match entriesResult names' with
          | Throw e => Throw e
          | Ok es => Ok ((name, path) :: es)
          end
      end
  end.

(** A dependency whose entry point node can load. *)
Definition resolvable (name : string) : Prop := ∃ path, entryResult name = Ok path.

(** The value of [createDependenciesBundle]: the first error of the
    entries or of the pass. *)
Definition prebundleResult (oc : pass) : result unit :=
  match entriesResult (dependenciesArr pj) with
  | Throw e => Throw e
  | Ok _ =>
      match compileError oc, writeError oc with
      | Some e, _ => Throw e
      | None, Some e => Throw e
      | None, None => Ok ()
      end
  end.

(** The first error of a pass. *)
Definition firstError (oc : pass) : option error :=
  match compileError oc with
  | Some e => Some e
  | None => writeError oc
  end.

(** The line [getEntryPointPath] prints for an entry in verbose mode
    (line 131). *)
Definition usingLine (entry : string * string) : line :=
  log ["Using " +:+ entry.1 +:+ ":"; entry.2].

(** The entries that resolve before the first dependency that does not. *)
Fixpoint resolvedPrefix (names : list string) : list (string * string) :=
  match names with
  | [] => []
  | name :: names' =>
      match entryResult name with
      | Ok path => (name, path) :: resolvedPrefix names'
      | Throw _ => []
      end
  end.

(** A path that is not the output directory and not under it. *)
Definition outside (p : string) : Prop :=
  p ≠ root "public/build" ∧ under (root "public/build") p = false.

(** A rebuild that compiles and writes its bundle. *)
Definition won (pm : pass * Z) : bool :=
  match firstError pm.1 with
  | None => true
  | Some _ => false
  end.

(** What the listener prints for one rebuild. *)
Definition passLines (p : pass * Z) : list line :=
  log [nl +:+ "Found Changes"]
  :: match firstError p.1 with
     | Some _ => []
     | None => [log ["Completed build: " +:+ durationText (Some p.2)]]
     end.

(** * Properties *)

(** [set_solver] on a goal that does not need node's part of the context. *)
Ltac set_solve :=
  try clear cmd; try clear pj; try clear require_json;
  try clear require_resolve; try clear path_join; try clear pkgdir;
  set_solver.

(** ** Strings *)

#[local] Arguments String.append !_ _ /.
#[local] Arguments String.prefix !_ !_ /.

Lemma append_assoc (a b c : string) : (a +:+ b) +:+ c = a +:+ (b +:+ c).
Proof. induction a as [|x a IH]; simpl; [done | by rewrite IH]. Qed.

Lemma length_append (a b : string) :
  String.length (a +:+ b) = String.length a + String.length b.
Proof. induction a as [|x a IH]; simpl; [done | by rewrite IH]. Qed.

(** Cancellation on the right, by the lengths. *)
Lemma append_inj_r (a b c : string) : a +:+ c = b +:+ c → a = b.
Proof.
  revert b. induction a as [|x a IH]; intros [|y b] H; simpl in H.
  - done.
  - apply (f_equal String.length) in H. simpl in H.
    rewrite length_append in H. lia.
  - apply (f_equal String.length) in H. simpl in H.
    rewrite length_append in H. lia.
  - injection H as -> H. f_equal. by apply IH.
Qed.

Lemma prefix_append_cancel (a b c : string) :
  String.prefix (a +:+ b) (a +:+ c) = String.prefix b c.
Proof.
  induction a as [|x a IH]; simpl; [done |].
  destruct (ascii_dec x x); [done | congruence].
Qed.

Lemma prefix_append_l (a b p : string) :
  String.prefix (a +:+ b) p = true → String.prefix a p = true.
Proof.
  revert p. induction a as [|x a IH]; intros [|y p] H; simpl in *; try done.
  destruct (ascii_dec x y); [by apply IH | done].
Qed.

Lemma in_dir_under (d f : string) : under d (in_dir d f) = true.
Proof.
  unfold under, in_dir. rewrite <- (append_assoc d "/" f).
  generalize (d +:+ "/"). intros a.
  induction a as [|x a IH]; simpl; [by destruct f |].
  destruct (ascii_dec x x); [done | congruence].
Qed.

(** What lies under the subdirectory [d/sub] lies under [d]. *)
Lemma under_subdir (d sub p : string) :
  under (d +:+ "/" +:+ sub) p = true → under d p = true.
Proof.
  unfold under. rewrite !append_assoc. intros H.
  rewrite <- (append_assoc d "/" _) in H. by apply prefix_append_l in H.
Qed.

(** A file named in [d] against the subdirectory [d/sub]. *)
Lemma under_sibling (d sub f : string) :
  under (d +:+ "/" +:+ sub) (in_dir d f) = String.prefix (sub +:+ "/") f.
Proof.
  unfold under, in_dir. rewrite !append_assoc.
  rewrite prefix_append_cancel. simpl.
  destruct (ascii_dec "/" "/"); [done | congruence].
Qed.

(** ** [Object.fromEntries] on computed entries *)

Lemma fromEntries_go_lookup {A} (f : string → A) (ks : list string)
    (m : gmap string A) (k : string) :
  foldl (λ m kv, <[kv.1 := kv.2]> m) m ((λ k, (k, f k)) <$> ks) !! k
  = if bool_decide (k ∈ ks) then Some (f k) else m !! k.
Proof.
  revert m. induction ks as [|x ks IH]; intros m; simpl.
  - done.
  - rewrite IH. destruct (decide (k = x)) as [->|Hne].
    + rewrite lookup_insert_eq.
      rewrite (bool_decide_eq_true_2 (x ∈ x :: ks)); [| set_solve].
      by case_bool_decide.
    + rewrite lookup_insert_ne; [| done].
      destruct (decide (k ∈ ks)) as [Hin|Hin].
      * rewrite !bool_decide_eq_true_2; [done | set_solve | done].
      * rewrite !bool_decide_eq_false_2; [done | set_solve | done].
Qed.

Lemma fromEntries_lookup {A} (f : string → A) (ks : list string) (k : string) :
  JS.fromEntries ((λ k, (k, f k)) <$> ks) !! k
  = if bool_decide (k ∈ ks) then Some (f k) else None.
Proof. unfold JS.fromEntries. by rewrite fromEntries_go_lookup, lookup_empty. Qed.

(** The keys of the object are the keys of its entries, whatever the
    values. *)
Lemma fromEntries_go_dom {A} (l : list (string * A)) (m : gmap string A) (k : string) :
  is_Some (foldl (λ m kv, <[kv.1 := kv.2]> m) m l !! k) ↔ k ∈ l.*1 ∨ is_Some (m !! k).
Proof.
  revert m. induction l as [|[x v] l IH]; intros m; simpl.
  - set_solve.
  - rewrite IH. destruct (decide (k = x)) as [->|Hne].
    + rewrite lookup_insert_eq. split; [intros _; left; set_solve | intros _; right; eauto].
    + rewrite lookup_insert_ne; [| done]. set_solve.
Qed.

Lemma fromEntries_dom {A} (l : list (string * A)) (k : string) :
  is_Some (JS.fromEntries l !! k) ↔ k ∈ l.*1.
Proof.
  unfold JS.fromEntries. rewrite fromEntries_go_dom, lookup_empty.
  split; [intros [H|[? H]]; [done | discriminate] | by left].
Qed.

(** ** Entry-point resolution *)

Lemma strict_eq_str_spec (v : JS.value) (lit : string) :
  JS.strict_eq_str v lit = bool_decide (v = JS.Str lit).
Proof.
  destruct v as [| |b|n|s|]; simpl; try reflexivity.
  destruct (String.eqb s lit) eqn:E.
  - apply String.eqb_eq in E. rewrite bool_decide_eq_true_2; congruence.
  - apply String.eqb_neq in E. rewrite bool_decide_eq_false_2; congruence.
Qed.

Lemma entryField_firstMatch (name : string) (p : Pkg.t) :
  entryField name p = firstMatch name p.
Proof.
  unfold entryField, firstMatch, JS.or. rewrite strict_eq_str_spec.
  case_bool_decide; case_decide; try done.
  destruct (JS.truthy (Pkg.module p)) eqn:Hm; [by rewrite Hm | done].
Qed.

(** No override is curated: a name that [Object.prototype] does not
    define has none. *)
Lemma ManualMap_none (name : string) :
  name ∉ JS.objectPrototype → JS.get ManualMap name = JS.Undefined.
Proof.
  intros H. unfold JS.get, ManualMap. rewrite lookup_empty.
  by rewrite bool_decide_eq_false_2.
Qed.

(** What [getEntryPointPath] does with the entry it chose. *)
Lemma getEntryPointPath_run (name : string) (p : Pkg.t) (w : world) :
  require_json (path_join name "package.json") = Ok p →
  getEntryPointPath name w =
    match entryField name p with
    | JS.Str s =>
        match require_resolve (path_join name s) with
        | Ok path =>
            (Ok path,
             if VERBOSE fl then print (log ["Using " +:+ name +:+ ":"; path]) w else w)
        | Throw e => (Throw e, w)
        end
    | _ => (Throw (TypeError "ERR_INVALID_ARG_TYPE"), w)
    end.
Proof.
  intros Hp.
  unfold getEntryPointPath, mbind, M_bind, lift, mret, M_ret, when, console_log, act.
  rewrite Hp.
  destruct (entryField name p) as [| |b|n|s|]; cbn [join_name]; try done.
  destruct (require_resolve (path_join name s)); [| done].
  by destruct (VERBOSE fl).
Qed.

(** C1 (as amended): the resolution is a function of the metadata that
    takes the first match of: the main field when the package's type is
    "module", else the module field, else the curated override, else the
    main field; the path it returns is what [require.resolve] finds for
    that entry; an entry is chosen whenever the main field is declared,
    the module field is a path or absent and no override applies; both
    [{main: "a.js", module: "b.js", type: "module"}] and
    [{main: "a.js", type: "commonjs"}] give "a.js". *)
Theorem entry_point_first_match (name : string) (p : Pkg.t) (w : world) :
  require_json (path_join name "package.json") = Ok p →
  entryField name p = firstMatch name p
  ∧ getEntryPointPath name w =
      match firstMatch name p with
      | JS.Str s =>
          match require_resolve (path_join name s) with
          | Ok path =>
              (Ok path,
               if VERBOSE fl then print (log ["Using " +:+ name +:+ ":"; path]) w else w)
          | Throw e => (Throw e, w)
          end
      | _ => (Throw (TypeError "ERR_INVALID_ARG_TYPE"), w)
      end
  ∧ (∀ s0, Pkg.main p = JS.Str s0 → pathOrAbsent (Pkg.module p) →
           name ∉ JS.objectPrototype →
           ∃ s, firstMatch name p = JS.Str s ∧ (s = s0 ∨ Pkg.module p = JS.Str s))
  ∧ firstMatch name Sample.esmPackage = JS.Str "a.js"
  ∧ (name ∉ JS.objectPrototype → firstMatch name Sample.cjsPackage = JS.Str "a.js").
Proof.
  intros Hp. split; [apply entryField_firstMatch |].
  split; [rewrite <- entryField_firstMatch; by apply getEntryPointPath_run |].
  split; [| split].
  - intros s0 Hmain Hmod Hname. unfold firstMatch.
    rewrite (ManualMap_none name Hname). simpl.
    case_decide; [eauto |].
    destruct Hmod as [-> | [s ->]]; simpl; [eauto |].
    destruct (String.eqb s ""); simpl; eauto.
  - reflexivity.
  - intros Hname. unfold firstMatch. rewrite (ManualMap_none name Hname).
    reflexivity.
Qed.

(** ** The static type check *)

Lemma staticTypeCheck_mode : staticTypeCheck = typescriptMode fl.
Proof.
  unfold staticTypeCheck, applicationPlugins, typescriptMode, watchPlugins.
  destruct (DEV fl), (TS fl); reflexivity.
Qed.

(** C2 (as amended): the type check of the application bundle is on
    in production mode whatever the flags; in development mode it is
    what the type-check flag says, and off when the flag is not given. *)
Theorem static_type_check_default :
  (DEV fl = false → staticTypeCheck = true)
  ∧ (DEV fl = true → staticTypeCheck = TS fl)
  ∧ (DEV fl = true → argTS cmd = None → staticTypeCheck = false).
Proof.
  rewrite staticTypeCheck_mode. unfold typescriptMode, fl, yargs. simpl.
  repeat split.
  - intros ->. by rewrite orb_true_r.
  - intros ->. by rewrite orb_false_r.
  - intros -> ->. reflexivity.
Qed.

(** ** The table of served paths *)

Lemma pathTable_lookup (k : string) :
  pathTable !! k =
    if bool_decide (k ∈ dependenciesArr pj)
    then Some ("./dependencies/" +:+ k +:+ ".js") else None.
Proof.
  unfold pathTable.
  apply (fromEntries_lookup (λ k, "./dependencies/" +:+ k +:+ ".js")).
Qed.

(** ** Build passes and the disk *)

Lemma rollup_rollup_run (io : inputOptions) (oc : pass) (w : world) :
  rollup_rollup io oc w =
    (match compileError oc with
     | Some e => Throw e
     | None => Ok (bundled io)
     end,
     with_files (λ fs, foldl (λ fs p, removeTargets p fs) fs (plugins io)) w).
Proof.
  unfold rollup_rollup, mbind, M_bind, act, lift, mret, M_ret.
  by destruct (compileError oc).
Qed.

Lemma bundle_write_run (b : bundle) (oo : outputOptions) (oc : pass) (w : world) :
  bundle_write b oo oc w =
    match writeError oc with
    | Some e => (Throw e, w)
    | None => (Ok (), written_by (writing b oo oc) w)
    end.
Proof. unfold bundle_write, act, lift. by destruct (writeError oc). Qed.

(** Nothing a [clear] target covers survives the start of a pass whose
    pipeline holds that [clear]. *)
Lemma removeTargets_keeps (ps : list plugin) (fs : gset string) (p : string) :
  p ∈ foldl (λ fs q, removeTargets q fs) fs ps → p ∈ fs.
Proof.
  revert fs. induction ps as [|q ps IH]; intros fs H; simpl in H; [done |].
  apply IH in H. destruct q; simpl in H; try done.
  by apply elem_of_filter in H as [_ H].
Qed.

Lemma removeTargets_clears (ps : list plugin) (targets : list string)
    (fs : gset string) (p : string) :
  clear targets ∈ ps →
  p ∈ foldl (λ fs q, removeTargets q fs) fs ps → covered targets p = false.
Proof.
  revert fs. induction ps as [|q ps IH]; intros fs Hin H; [by apply elem_of_nil in Hin |].
  apply elem_of_cons in Hin as [<- | Hin]; simpl in H.
  - apply removeTargets_keeps in H. by apply elem_of_filter in H as [H _].
  - by apply (IH _ Hin) in H.
Qed.

(** A pipeline without [clear] leaves the disk alone. *)
Lemma removeTargets_no_clear (ps : list plugin) (fs : gset string) :
  existsb isClear ps = false → foldl (λ fs q, removeTargets q fs) fs ps = fs.
Proof.
  revert fs. induction ps as [|q ps IH]; intros fs H; simpl in *; [done |].
  apply orb_false_iff in H as [Hq H]. rewrite (IH _ H). by destruct q.
Qed.

Lemma elem_of_removeTargets (ps : list plugin) (fs : gset string) (p : string) :
  p ∈ foldl (λ fs q, removeTargets q fs) fs ps
  ↔ p ∈ fs ∧ ∀ targets, clear targets ∈ ps → covered targets p = false.
Proof.
  split.
  - intros H. split; [by apply removeTargets_keeps in H |].
    intros targets Hin. by apply (removeTargets_clears ps targets fs).
  - revert fs. induction ps as [|q ps IH]; intros fs [Hp Hall]; simpl; [done |].
    apply IH. split.
    + destruct q; simpl; try done.
      apply elem_of_filter. split; [| done]. apply Hall, list_elem_of_here.
    + intros targets Hin. by apply Hall, list_elem_of_further.
Qed.

(** Removing the targets a second time removes nothing more. *)
Lemma removeTargets_twice (ps : list plugin) (fs : gset string) :
  foldl (λ fs q, removeTargets q fs) (foldl (λ fs q, removeTargets q fs) fs ps) ps
  = foldl (λ fs q, removeTargets q fs) fs ps.
Proof. apply set_eq. intros p. rewrite !elem_of_removeTargets. set_solve. Qed.

Lemma create_run (ps : list plugin) (w : world) :
  create ps w = (Ok (), with_files (λ fs, foldl (λ fs q, removeTargets q fs) fs ps) w).
Proof. reflexivity. Qed.

Lemma removed_again (ps : list plugin) (w0 w : world) :
  files w = files (with_files (λ fs, foldl (λ fs q, removeTargets q fs) fs ps) w0) →
  with_files (λ fs, foldl (λ fs q, removeTargets q fs) fs ps) w = w.
Proof.
  destruct w. unfold with_files. cbn [files console exitCode watching writes].
  intros ->. by rewrite removeTargets_twice.
Qed.

Lemma covered_under (d p : string) : under d p = true → covered [d] p = true.
Proof. intros H. simpl. rewrite H. by rewrite !orb_true_r. Qed.

Lemma banner_frame (w : world) :
  files (banner w) = files w ∧ exitCode (banner w) = exitCode w
  ∧ watching (banner w) = watching w.
Proof. unfold banner. by destruct (VERBOSE fl). Qed.

(** The production build, step by step. *)
Lemma productionBuild_run (oc : pass) (w : world) :
  productionBuild oc w =
    let w1 := print (time "Completed Production Build")
                (if VERBOSE fl then print (log ["Started Production Build"]) w else w) in
    let w2 := with_files (filter (λ f, covered [root "public/build"] f = false)) w1 in
    match firstError oc with
    | Some e => (Throw e, w2)
    | None =>
        (Ok (),
         print (timeEnd "Completed Production Build")
           (written_by (writing (bundled productionInput) productionOutput oc) w2))
    end.
Proof.
  unfold productionBuild, firstError, mbind, M_bind.
  unfold when, console_log, console_time, console_timeEnd, mret, M_ret.
  destruct (VERBOSE fl); unfold act at 1; rewrite create_run; unfold act at 1;
    rewrite rollup_rollup_run; cbn [plugins productionInput];
    match goal with
    | |- context [with_files ?F (print ?l (with_files ?F ?v))] =>
        rewrite (removed_again productionPlugins v (print l (with_files F v)) eq_refl)
    end;
    (destruct (compileError oc); [done |]);
    rewrite bundle_write_run; by destruct (writeError oc).
Qed.

Lemma production_outputs :
  outputFiles [aliasName sourceEntryPoint] productionOutput
  = {[ in_dir (root "public/build") "bundle.js";
       in_dir (root "public/build") "bundle.js.map" ]}.
Proof.
  unfold outputFiles, productionOutput, in_dir. cbn [mbind list_bind dir entryFileNames sourcemap].
  change (renderName "bundle.js" (aliasName sourceEntryPoint)) with "bundle.js".
  cbn [app list_to_set foldr].
  rewrite !append_assoc. set_solve.
Qed.

Lemma watch_outputs :
  outputFiles [aliasName sourceEntryPoint] watchOutput
  = {[ in_dir (root "public/build") "bundle.js";
       in_dir (root "public/build") "bundle.js.map" ]}.
Proof.
  unfold outputFiles, watchOutput, in_dir. cbn [mbind list_bind dir entryFileNames sourcemap].
  change (renderName "bundle.js" (aliasName sourceEntryPoint)) with "bundle.js".
  cbn [app list_to_set foldr].
  rewrite !append_assoc. set_solve.
Qed.

Lemma elem_of_emittedFiles (oc : pass) (oo : outputOptions) (p : string) :
  p ∈ emittedFiles oc oo ↔ ∃ f, f ∈ emitted oc ∧ p = in_dir (dir oo) f.
Proof.
  unfold emittedFiles. rewrite elem_of_list_to_set, list_elem_of_fmap.
  split; intros (f & H1 & H2); exists f; done.
Qed.

Lemma emitted_under (oc : pass) (oo : outputOptions) (p : string) :
  p ∈ emittedFiles oc oo → under (dir oo) p = true.
Proof. intros H. apply elem_of_emittedFiles in H as (f & _ & ->). apply in_dir_under. Qed.

Lemma production_wrote (oc : pass) :
  wrote (writing (bundled productionInput) productionOutput oc)
  = {[ in_dir (root "public/build") "bundle.js";
       in_dir (root "public/build") "bundle.js.map" ]}
    ∪ emittedFiles oc productionOutput.
Proof.
  cbn [wrote writing bundled entryChunks productionInput input chunkNames].
  by rewrite production_outputs.
Qed.

(** The files of a successful production invocation. *)
Lemma production_files (oc : pass) (w : world) :
  DEV fl = false →
  firstError oc = None →
  files (script oc w)
  = filter (λ f, covered [root "public/build"] f = false) (files w)
    ∪ ({[ in_dir (root "public/build") "bundle.js";
          in_dir (root "public/build") "bundle.js.map" ]}
       ∪ emittedFiles oc productionOutput).
Proof.
  intros Hdev Hok. unfold script, catch. rewrite Hdev, productionBuild_run, Hok.
  cbv zeta. destruct (banner_frame w) as (Hf & _ & _).
  destruct (VERBOSE fl); cbn [files print with_files written_by];
    by rewrite production_wrote, Hf.
Qed.

(** C6 (as amended): a production invocation whose pass succeeds leaves,
    under the output root [public/build], [bundle.js], [bundle.js.map] and
    the files rollup emits for the chunks it splits off, and nothing else:
    exactly the first two when no chunk is split off; as no such file is
    named into [dependencies/], nothing lies under
    [public/build/dependencies]; the one bundle that is written inlines
    every module it imports, so that no dependency is external; no watcher
    is created and the process does not exit. *)
Theorem production_writes_bundle_only (oc : pass) (w : world) :
  DEV fl = false →
  firstError oc = None →
  let w' := script oc w in
  let out := root "public/build" in
  (∀ p, under out p = true →
        (p ∈ files w'
         ↔ p = in_dir out "bundle.js" ∨ p = in_dir out "bundle.js.map"
           ∨ ∃ f, f ∈ emitted oc ∧ p = in_dir out f))
  ∧ (emitted oc = [] →
     ∀ p, under out p = true →
          (p ∈ files w' ↔ p = in_dir out "bundle.js" ∨ p = in_dir out "bundle.js.map"))
  ∧ ((∀ f, f ∈ emitted oc → String.prefix "dependencies/" f = false) →
     ∀ p, p ∈ files w' → under (root "public/build/dependencies") p = false)
  ∧ (∃ wr, writes w' = (writes w ++ [wr])%list
           ∧ by_input wr = productionInput
           ∧ by_output wr = productionOutput
           ∧ wrote wr ⊆ files w'
           ∧ ∀ m, renderImport (by_input wr) (by_output wr) m = Inlined)
  ∧ watching w' = watching w
  ∧ exitCode w' = exitCode w.
Proof.
  intros Hdev Hok w' out.
  pose proof (production_files oc w Hdev Hok) as Hfiles. fold w' out in Hfiles.
  assert (Hexact : ∀ p, under out p = true →
            (p ∈ files w'
             ↔ p = in_dir out "bundle.js" ∨ p = in_dir out "bundle.js.map"
               ∨ ∃ f, f ∈ emitted oc ∧ p = in_dir out f)).
  { intros p Hu. rewrite Hfiles, !elem_of_union, elem_of_filter, elem_of_emittedFiles.
    rewrite (covered_under _ _ Hu), !elem_of_singleton.
    cbn [dir productionOutput]. fold out. naive_solver. }
  split; [exact Hexact |].
  split.
  { intros Hnone p Hu. rewrite (Hexact p Hu), Hnone.
    split; [intros [H | [H | (f & Hf & _)]]; eauto; by apply elem_of_nil in Hf | naive_solver]. }
  split.
  { intros Hflat p Hp.
    destruct (under (root "public/build/dependencies") p) eqn:Hu; [| done].
    assert (Hout : under out p = true).
    { apply (under_subdir out "dependencies"). subst out. unfold root in *.
      by rewrite append_assoc. }
    assert (Hsub : under (out +:+ "/" +:+ "dependencies") p = true).
    { subst out. unfold root in *. by rewrite append_assoc. }
    apply (Hexact p Hout) in Hp as [-> | [-> | (f & Hf & ->)]];
      rewrite under_sibling in Hsub; [done | done |].
    change (String.prefix "dependencies/" f = true) in Hsub.
    by rewrite (Hflat f Hf) in Hsub. }
  subst w'. unfold script, catch. rewrite Hdev, productionBuild_run, Hok. cbv zeta.
  destruct (banner_frame w) as (_ & He & Hw).
  assert (Hbw : writes (banner w) = writes w) by (unfold banner; by destruct (VERBOSE fl)).
  split.
  { exists (writing (bundled productionInput) productionOutput oc).
    split; [| split; [reflexivity | split; [reflexivity | split]]].
    - destruct (VERBOSE fl); cbn [writes print with_files written_by]; by rewrite Hbw.
    - destruct (VERBOSE fl); cbn [files print with_files written_by]; set_solve.
    - intros m. done. }
  destruct (VERBOSE fl); cbn [watching exitCode with_files print written_by];
    by rewrite ?He, ?Hw.
Qed.

(** ** The dependency pre-bundle *)

Lemma getEntryPointPath_result (name : string) (w : world) :
  getEntryPointPath name w =
    (entryResult name,
     match entryResult name with
     | Ok path =>
         if VERBOSE fl then print (log ["Using " +:+ name +:+ ":"; path]) w else w
     | Throw _ => w
     end).
Proof.
  unfold getEntryPointPath, entryResult, mbind, M_bind, lift, mret, M_ret.
  unfold when, console_log, act.
  destruct (require_json (path_join name "package.json")) as [p|e]; [| done].
  destruct (join_name name (entryField name p)) as [request|e]; [| done].
  destruct (require_resolve request) as [path|e]; [| done].
  by destruct (VERBOSE fl).
Qed.

(** Resolving the entries only writes to the console. *)
Lemma resolve_entries (names : list string) (w : world) :
  ∃ w1,
    mapM (λ name, path ← getEntryPointPath name; mret (name, path)) names w
    = (entriesResult names, w1)
    ∧ files w1 = files w ∧ exitCode w1 = exitCode w ∧ watching w1 = watching w
    ∧ writes w1 = writes w.
Proof.
  revert w. induction names as [|name names IH]; intros w.
  - by exists w.
  - cbn [mapM entriesResult]. unfold mbind at 1. unfold M_bind at 1.
    unfold mbind at 1. unfold M_bind at 1. rewrite getEntryPointPath_result.
    destruct (entryResult name) as [path|e]; [| by exists w].
    unfold mret at 1. unfold M_ret at 1.
    unfold mbind at 1. unfold M_bind at 1.
    set (w0 := if VERBOSE fl then _ else w).
    destruct (IH w0) as (w1 & -> & Hf & He & Hw & Hwr).
    assert (files w0 = files w ∧ exitCode w0 = exitCode w ∧ watching w0 = watching w
            ∧ writes w0 = writes w)
      as (Hf0 & He0 & Hw0 & Hwr0) by (subst w0; by destruct (VERBOSE fl)).
    exists w1. rewrite Hf, He, Hw, Hwr.
    by destruct (entriesResult names).
Qed.

Lemma entriesResult_names (names : list string) (es : list (string * string)) :
  entriesResult names = Ok es → es.*1 = names.
Proof.
  revert es. induction names as [|name names IH]; intros es H; simpl in H.
  - by injection H as <-.
  - destruct (entryResult name); [| done].
    destruct (entriesResult names) as [es'|]; [| done].
    injection H as <-. simpl. f_equal. by apply IH.
Qed.

Lemma entriesResult_resolvable (names : list string) :
  (∀ name, name ∈ names → resolvable name) → ∃ es, entriesResult names = Ok es.
Proof.
  induction names as [|name names IH]; intros H; simpl; [by eexists |].
  destruct (H name) as [path ->]; [set_solve |].
  destruct IH as [es ->]; [set_solve | by eexists].
Qed.

(** The pre-bundle, step by step. *)
Lemma createDependenciesBundle_run (oc : pass) (w : world) :
  ∃ w1,
    files w1 = filter (λ f, covered [root "public/build"] f = false) (files w)
    ∧ exitCode w1 = exitCode w ∧ watching w1 = watching w ∧ writes w1 = writes w
    ∧ createDependenciesBundle oc w =
        match entriesResult (dependenciesArr pj) with
        | Throw e => (Throw e, w1)
        | Ok es =>
            match firstError oc with
            | Some e => (Throw e, w1)
            | None =>
                (Ok (),
                 written_by
                   (writing (bundled (dependenciesInput es)) dependenciesOutput oc) w1)
            end
        end.
Proof.
  set (w0 := with_files (λ fs, foldl (λ fs q, removeTargets q fs) fs dependenciesPlugins) w).
  destruct (resolve_entries (dependenciesArr pj) w0) as (w1 & Hrun & Hf & He & Hw & Hwr).
  exists w1. repeat split; try done.
  unfold createDependenciesBundle. unfold mbind at 1. unfold M_bind at 1.
  rewrite create_run. fold w0. unfold mbind at 1. unfold M_bind at 1.
  rewrite Hrun. destruct (entriesResult (dependenciesArr pj)) as [es|e]; [| done].
  unfold mbind, M_bind, firstError. rewrite rollup_rollup_run.
  cbn [plugins dependenciesInput]. rewrite (removed_again dependenciesPlugins w w1 Hf).
  destruct (compileError oc); [done |].
  rewrite bundle_write_run. by destruct (writeError oc).
Qed.

Lemma createDependenciesBundle_value (oc : pass) (w : world) :
  (createDependenciesBundle oc w).1 = prebundleResult oc.
Proof.
  destruct (createDependenciesBundle_run oc w) as (w1 & _ & _ & _ & _ & ->).
  unfold prebundleResult, firstError.
  destruct (entriesResult (dependenciesArr pj)); [| done].
  destruct (compileError oc); [done |]. by destruct (writeError oc).
Qed.

(** ** The development build *)

Lemma watchPlugins_no_clear : existsb isClear watchPlugins = false.
Proof. unfold watchPlugins. by destruct (TS fl). Qed.

Lemma start_no_clear (ps : list plugin) (w : world) :
  existsb isClear ps = false →
  with_files (λ fs, foldl (λ fs q, removeTargets q fs) fs ps) w = w.
Proof.
  intros H. destruct w. unfold with_files. cbn [files console exitCode watching writes].
  by rewrite (removeTargets_no_clear ps _ H).
Qed.

(** Making the plugins of the watcher removes nothing. *)
Lemma startWatchMode_run (w : world) :
  startWatchMode w = (Ok (), watch_with theWatcher w).
Proof.
  unfold startWatchMode, mbind, M_bind. rewrite create_run.
  by rewrite start_no_clear by apply watchPlugins_no_clear.
Qed.

Lemma developmentBuild_run (oc : pass) (w : world) :
  ∃ w1,
    files w1 = filter (λ f, covered [root "public/build"] f = false) (files w)
    ∧ exitCode w1 = exitCode w ∧ watching w1 = watching w ∧ writes w1 = writes w
    ∧ developmentBuild oc w =
        match entriesResult (dependenciesArr pj) with
        | Throw e => (Throw e, w1)
        | Ok es =>
            match firstError oc with
            | Some e => (Throw e, w1)
            | None =>
                let w3 :=
                  print (timeEnd "Created Dependencies Bundle")
                    (written_by
                       (writing (bundled (dependenciesInput es)) dependenciesOutput oc)
                       w1) in
                (Ok (),
                 watch_with theWatcher
                   (if VERBOSE fl then print (log [nl +:+ "Starting Watch Mode"]) w3 else w3))
            end
        end.
Proof.
  unfold developmentBuild. unfold mbind, M_bind.
  unfold when, console_log, console_time, console_timeEnd, act, mret, M_ret.
  destruct (VERBOSE fl);
    match goal with
    | |- context [createDependenciesBundle oc ?w0] =>
        destruct (createDependenciesBundle_run oc w0) as (w1 & Hf & He & Hw & Hwr & ->)
    end;
    exists w1; (repeat split; try done);
    destruct (entriesResult (dependenciesArr pj)) as [es|e]; try done;
    cbv zeta; destruct (firstError oc); try done; by rewrite startWatchMode_run.
Qed.

(** ** The watcher *)

Lemma tell_quiet (c : string) (w : world) :
  c ≠ "BUNDLE_START" → c ≠ "BUNDLE_END" →
  ∀ d f, tell {| code := c; duration := d; failure := f |} w = w.
Proof.
  intros H1 H2 d f. unfold tell, onEvent, mbind, M_bind, when. cbn [code].
  apply String.eqb_neq in H1, H2. by rewrite H1, H2.
Qed.

(** One pass of the script's watcher. *)
Lemma watchPass_run (oc : pass) (ms : Z) (w : world) :
  watchPass theWatcher oc ms w =
    let w1 := print (log [nl +:+ "Found Changes"]) w in
    match firstError oc with
    | Some e => w1
    | None =>
        print (log ["Completed build: " +:+ durationText (Some ms)])
          (written_by (writing (bundled watchInput) watchOutput oc) w1)
    end.
Proof.
  unfold watchPass, rebuild, ev. rewrite (tell_quiet "START"); [| done | done].
  unfold mbind, M_bind. rewrite rollup_rollup_run.
  cbn [w_input theWatcher plugins watchInput input chunkNames w_output mapM].
  rewrite start_no_clear by apply watchPlugins_no_clear.
  unfold firstError. destruct (compileError oc) as [e|].
  - rewrite (tell_quiet "ERROR"); [| done | done].
    rewrite (tell_quiet "END"); [| done | done]. by destruct w.
  - unfold mbind, M_bind. rewrite bundle_write_run.
    destruct (writeError oc) as [e|].
    + rewrite (tell_quiet "ERROR"); [| done | done].
      rewrite (tell_quiet "END"); [| done | done]. by destruct w.
    + unfold mret, M_ret. rewrite (tell_quiet "END"); [| done | done].
      by destruct w.
Qed.

Lemma watchPass_keeps_files (oc : pass) (ms : Z) (w : world) :
  files w ⊆ files (watchPass theWatcher oc ms w).
Proof.
  rewrite watchPass_run. cbv zeta.
  destruct (firstError oc); cbn [files print with_files written_by]; set_solve.
Qed.

Lemma watchPass_frame (oc : pass) (ms : Z) (w : world) :
  exitCode (watchPass theWatcher oc ms w) = exitCode w
  ∧ watching (watchPass theWatcher oc ms w) = watching w.
Proof. rewrite watchPass_run. cbv zeta. by destruct (firstError oc). Qed.

Lemma watchLoop_keeps_files (passes : list (pass * Z)) (w : world) :
  watching w = Some theWatcher → files w ⊆ files (watchLoop passes w).
Proof.
  intros Hw. unfold watchLoop. rewrite Hw. destruct (exitCode w); [done |].
  revert w Hw. induction passes as [|[oc ms] passes IH]; intros w Hw; simpl; [done |].
  etrans; [apply (watchPass_keeps_files oc ms) |].
  apply IH. by rewrite (proj2 (watchPass_frame oc ms w)).
Qed.

(** ** The layout of a development build *)

Lemma dependency_map_name (d name : string) :
  in_dir d (name +:+ ".js") +:+ ".map" = in_dir d (name +:+ ".js.map").
Proof.
  unfold in_dir. rewrite !append_assoc. do 3 f_equal.
Qed.

Lemma dependency_outputs (es : list (string * string)) (p : string) :
  p ∈ outputFiles (chunkNames (Named (JS.fromEntries es))) dependenciesOutput
  ↔ ∃ name, name ∈ es.*1
      ∧ (p = in_dir (root "public/build/dependencies") (name +:+ ".js")
         ∨ p = in_dir (root "public/build/dependencies") (name +:+ ".js.map")).
Proof.
  unfold outputFiles. rewrite elem_of_list_to_set, list_elem_of_bind.
  cbn [chunkNames dir entryFileNames sourcemap dependenciesOutput].
  change (λ n, renderName "[name].js" n) with (λ n : string, n +:+ ".js").
  split.
  - intros (name & Hp & Hname). exists name. split.
    + apply fromEntries_dom. apply list_elem_of_fmap in Hname as ([k v] & -> & Hkv).
      apply elem_of_map_to_list in Hkv. by eexists.
    + change (renderName "[name].js" name) with (name +:+ ".js") in Hp.
      rewrite dependency_map_name in Hp. set_solve.
  - intros (name & Hname & Hp). exists name. split.
    + change (renderName "[name].js" name) with (name +:+ ".js").
      rewrite dependency_map_name. set_solve.
    + apply fromEntries_dom in Hname as [v Hv].
      apply list_elem_of_fmap. exists (name, v). split; [done |].
      by apply elem_of_map_to_list.
Qed.

(** The world a successful start of the development build leaves. *)
Lemma development_started (oc : pass) (es : list (string * string)) (w : world) :
  DEV fl = true →
  entriesResult (dependenciesArr pj) = Ok es →
  firstError oc = None →
  files (script oc w)
  = filter (λ f, covered [root "public/build"] f = false) (files w)
    ∪ (outputFiles (chunkNames (Named (JS.fromEntries es))) dependenciesOutput
       ∪ emittedFiles oc dependenciesOutput)
  ∧ watching (script oc w) = Some theWatcher
  ∧ exitCode (script oc w) = exitCode w
  ∧ writes (script oc w)
    = (writes w ++ [writing (bundled (dependenciesInput es)) dependenciesOutput oc])%list.
Proof.
  intros Hdev Hes Hok. destruct (banner_frame w) as (Hbf & Hbe & _).
  assert (Hbw : writes (banner w) = writes w) by (unfold banner; by destruct (VERBOSE fl)).
  unfold script, catch. rewrite Hdev.
  destruct (developmentBuild_run oc (banner w)) as (w1 & Hf & He & _ & Hwr & ->).
  rewrite Hes, Hok. cbv zeta.
  destruct (VERBOSE fl);
    cbn [files watching exitCode writes watch_with print with_files written_by wrote writing
         bundled entryChunks dependenciesInput input];
    by rewrite ?Hf, ?He, ?Hwr, ?Hbf, ?Hbe, ?Hbw.
Qed.

Lemma passes_keep_files (passes : list (pass * Z)) (w : world) :
  files w ⊆ files (foldl (λ w pm, watchPass theWatcher pm.1 pm.2 w) w passes).
Proof.
  revert w. induction passes as [|[oc ms] passes IH]; intros w; [done |].
  cbn [foldl fst snd]. etrans; [apply (watchPass_keeps_files oc ms) | apply IH].
Qed.

Lemma passes_frame (passes : list (pass * Z)) (w : world) :
  exitCode (foldl (λ w pm, watchPass theWatcher pm.1 pm.2 w) w passes) = exitCode w
  ∧ watching (foldl (λ w pm, watchPass theWatcher pm.1 pm.2 w) w passes) = watching w.
Proof.
  revert w. induction passes as [|[oc ms] passes IH]; intros w; [done |].
  cbn [foldl fst snd]. destruct (IH (watchPass theWatcher oc ms w)) as [-> ->].
  apply watchPass_frame.
Qed.

(** The bundles the rebuilds of the script's watcher write: one for each
    rebuild that succeeds, built from the watcher's input options and
    written with its output options. *)
Lemma passes_writes (passes : list (pass * Z)) (w : world) :
  writes (foldl (λ w pm, watchPass theWatcher pm.1 pm.2 w) w passes)
  = (writes w
     ++ ((λ pm, writing (bundled watchInput) watchOutput pm.1)
           <$> filter (λ pm, won pm = true) passes))%list.
Proof.
  revert w. induction passes as [|[oc ms] passes IH]; intros w.
  - cbn. by rewrite app_nil_r.
  - cbn [foldl fst snd]. rewrite IH, watchPass_run. cbv zeta.
    rewrite filter_cons.
    destruct (decide (won (oc, ms) = true)) as [Hwon | Hwon];
      unfold won in Hwon; cbn [fst] in Hwon;
      destruct (firstError oc); try done; cbn [writes print written_by].
    cbn [fmap list_fmap fst]. by rewrite <- app_assoc.
Qed.

Lemma rebuilds_written (passes : list (pass * Z)) (w : world) :
  watching w = Some theWatcher →
  exitCode w = None →
  ∃ rebuilt,
    writes (watchLoop passes w) = (writes w ++ rebuilt)%list
    ∧ length rebuilt = length (filter (λ pm, won pm = true) passes)
    ∧ ∀ wr, wr ∈ rebuilt →
        by_input wr = watchInput
        ∧ by_output wr = watchOutput
        ∧ in_dir (root "public/build") "bundle.js" ∈ wrote wr
        ∧ in_dir (root "public/build") "bundle.js.map" ∈ wrote wr.
Proof.
  intros Hw He. unfold watchLoop. rewrite Hw, He, passes_writes.
  eexists. split; [reflexivity |]. split; [by rewrite length_fmap |].
  intros wr Hwr. apply list_elem_of_fmap in Hwr as (pm & -> & _).
  split; [done |]. split; [done |].
  cbn [wrote writing bundled entryChunks watchInput input chunkNames].
  rewrite watch_outputs. split; set_solve.
Qed.

(** C3: in a development invocation whose dependencies resolve and whose
    pre-bundle pass succeeds, the pre-bundle writes one bundle, into
    [public/build/dependencies], with [<name>.js] and [<name>.js.map] for
    every declared dependency, and the files are on the disk afterwards
    and after any number of rebuilds; every rebuild of the watcher that
    succeeds then writes one application bundle, with [bundle.js], built
    with all declared dependencies external and with the import of each
    written as [./dependencies/<name>.js] instead of inlined. *)
Theorem development_build_layout (oc : pass) (passes : list (pass * Z)) (w : world) :
  DEV fl = true →
  (∀ name, name ∈ dependenciesArr pj → resolvable name) →
  firstError oc = None →
  exitCode w = None →
  let w1 := script oc w in
  let w2 := watchLoop passes w1 in
  let deps := root "public/build/dependencies" in
  (∃ pre,
     writes w1 = (writes w ++ [pre])%list
     ∧ dir (by_output pre) = deps
     ∧ ∀ name, name ∈ dependenciesArr pj →
         in_dir deps (name +:+ ".js") ∈ wrote pre
         ∧ in_dir deps (name +:+ ".js.map") ∈ wrote pre
         ∧ in_dir deps (name +:+ ".js") ∈ files w1
         ∧ in_dir deps (name +:+ ".js.map") ∈ files w1
         ∧ in_dir deps (name +:+ ".js") ∈ files w2
         ∧ in_dir deps (name +:+ ".js.map") ∈ files w2)
  ∧ ∃ rebuilt,
      writes w2 = (writes w1 ++ rebuilt)%list
      ∧ length rebuilt = length (filter (λ pm, won pm = true) passes)
      ∧ ∀ wr, wr ∈ rebuilt →
          in_dir (root "public/build") "bundle.js" ∈ wrote wr
          ∧ external (by_input wr) = dependenciesArr pj
          ∧ ∀ name, name ∈ dependenciesArr pj →
              renderImport (by_input wr) (by_output wr) name
              = Imported ("./dependencies/" +:+ name +:+ ".js").
Proof.
  intros Hdev Hres Hok Hlive w1 w2 deps.
  destruct (entriesResult_resolvable _ Hres) as [es Hes].
  pose proof (entriesResult_names _ _ Hes) as Hnames.
  destruct (development_started oc es w Hdev Hes Hok) as (Hfiles & Hw & He & Hwr).
  fold w1 in Hfiles, Hw, He, Hwr.
  split.
  - eexists. split; [exact Hwr |]. split; [reflexivity |].
    intros name Hname.
    assert (Hjs : in_dir deps (name +:+ ".js")
                  ∈ outputFiles (chunkNames (Named (JS.fromEntries es))) dependenciesOutput).
    { apply dependency_outputs. exists name. rewrite Hnames. eauto. }
    assert (Hmap : in_dir deps (name +:+ ".js.map")
                   ∈ outputFiles (chunkNames (Named (JS.fromEntries es))) dependenciesOutput).
    { apply dependency_outputs. exists name. rewrite Hnames. eauto. }
    assert (H1 : in_dir deps (name +:+ ".js") ∈ files w1) by (rewrite Hfiles; set_solve).
    assert (H2 : in_dir deps (name +:+ ".js.map") ∈ files w1) by (rewrite Hfiles; set_solve).
    assert (Hkeep : files w1 ⊆ files w2) by (by apply watchLoop_keeps_files).
    cbn [wrote writing bundled entryChunks dependenciesInput input].
    repeat split; try done; try (by apply Hkeep); set_solve.
  - rewrite Hlive in He.
    destruct (rebuilds_written passes w1 Hw He) as (rebuilt & H1 & H2 & H3).
    exists rebuilt. split; [exact H1 |]. split; [exact H2 |].
    intros wr Hin. destruct (H3 wr Hin) as (-> & -> & Hb & _).
    split; [exact Hb |]. split; [done |].
    intros name Hname. unfold renderImport. cbn [external watchInput paths watchOutput].
    rewrite bool_decide_eq_true_2 by done. rewrite pathTable_lookup.
    by rewrite bool_decide_eq_true_2.
Qed.

(** ** The environment marker *)

(** C10: in a development invocation whose dependencies resolve and whose
    pre-bundle pass succeeds, the one bundle the pre-bundle writes, with
    the files of the dependencies, is built by a pipeline that substitutes
    [process.env.NODE_ENV] by the literal "development"; every application
    bundle the rebuilds of the watcher write is built by a pipeline
    without a replace plugin, which substitutes no marker. *)
Theorem env_marker_only_in_prebundle (oc : pass) (passes : list (pass * Z)) (w : world) :
  DEV fl = true →
  (∀ name, name ∈ dependenciesArr pj → resolvable name) →
  firstError oc = None →
  exitCode w = None →
  let w1 := script oc w in
  let w2 := watchLoop passes w1 in
  (∃ pre,
     writes w1 = (writes w ++ [pre])%list
     ∧ (∀ name, name ∈ dependenciesArr pj →
          in_dir (root "public/build/dependencies") (name +:+ ".js") ∈ wrote pre)
     ∧ replacement "process.env.NODE_ENV" (plugins (by_input pre))
       = Some (quoted "development"))
  ∧ ∃ rebuilt,
      writes w2 = (writes w1 ++ rebuilt)%list
      ∧ length rebuilt = length (filter (λ pm, won pm = true) passes)
      ∧ ∀ wr, wr ∈ rebuilt →
          in_dir (root "public/build") "bundle.js" ∈ wrote wr
          ∧ existsb isReplace (plugins (by_input wr)) = false
          ∧ ∀ marker, replacement marker (plugins (by_input wr)) = None.
Proof.
  intros Hdev Hres Hok Hlive w1 w2.
  destruct (entriesResult_resolvable _ Hres) as [es Hes].
  pose proof (entriesResult_names _ _ Hes) as Hnames.
  destruct (development_started oc es w Hdev Hes Hok) as (_ & Hw & He & Hwr).
  fold w1 in Hw, He, Hwr.
  split.
  - eexists. split; [exact Hwr |]. split; [| reflexivity].
    intros name Hname.
    cbn [wrote writing bundled entryChunks dependenciesInput input].
    apply elem_of_union_l, dependency_outputs. exists name. rewrite Hnames. eauto.
  - rewrite Hlive in He.
    destruct (rebuilds_written passes w1 Hw He) as (rebuilt & H1 & H2 & H3).
    exists rebuilt. split; [exact H1 |]. split; [exact H2 |].
    intros wr Hin. destruct (H3 wr Hin) as (-> & _ & Hb & _).
    split; [exact Hb |]. cbn [plugins watchInput]. unfold watchPlugins.
    split; [| intros marker]; by destruct (TS fl).
Qed.

(** ** Which passes clear the output directory *)

Lemma script_failed_pass_files (oc : pass) (e : error) (w : world) :
  firstError oc = Some e →
  DEV fl = false ∨ (∀ name, name ∈ dependenciesArr pj → resolvable name) →
  files (script oc w) = filter (λ f, covered [root "public/build"] f = false) (files w).
Proof.
  intros Herr Hmode. destruct (banner_frame w) as (Hbf & _ & _).
  unfold script, catch. destruct (DEV fl) eqn:Hdev.
  - destruct Hmode as [? | Hres]; [done |].
    destruct (entriesResult_resolvable _ Hres) as [es Hes].
    destruct (developmentBuild_run oc (banner w)) as (w1 & Hf & _ & _ & _ & ->).
    rewrite Hes, Herr. cbv zeta.
    cbn [errorHandler files process_exit print with_files written_by]. by rewrite Hf, Hbf.
  - rewrite productionBuild_run, Herr. cbv zeta.
    destruct (VERBOSE fl); cbn [errorHandler files process_exit print with_files written_by];
      by rewrite Hbf.
Qed.

(** C7 (as amended): the production pass and the dependency pre-bundle
    pass clear the output directory [public/build] when they start, so
    after a failed pass of either nothing is left under it; the rebuilds
    of the watcher have no clearing step and remove no file. *)
Theorem clearing_passes (oc : pass) (w : world) :
  let out := root "public/build" in
  (∀ p, p ∈ files (rollup_rollup productionInput oc w).2 →
        p ∈ files w ∧ p ≠ out ∧ under out p = false)
  ∧ (∀ es p, p ∈ files (rollup_rollup (dependenciesInput es) oc w).2 →
        p ∈ files w ∧ p ≠ out ∧ under out p = false)
  ∧ (∀ e, firstError oc = Some e →
        DEV fl = false ∨ (∀ name, name ∈ dependenciesArr pj → resolvable name) →
        ∀ p, p ∈ files (script oc w) → under out p = false)
  ∧ existsb isClear (plugins (w_input theWatcher)) = false
  ∧ (∀ ms, files w ⊆ files (watchPass theWatcher oc ms w)).
Proof.
  intros out.
  assert (Hcov : ∀ p, covered [out] p = false → p ≠ out ∧ under out p = false).
  { intros p Hc. simpl in Hc. rewrite orb_false_r in Hc.
    apply orb_false_iff in Hc as [Hne Hu]. split; [| done].
    apply String.eqb_neq in Hne. congruence. }
  split; [| split; [| split; [| split]]].
  - intros p Hp. rewrite rollup_rollup_run in Hp.
    cbn [snd files with_files written_by] in Hp.
    split; [by apply removeTargets_keeps in Hp |]. apply Hcov.
    apply (removeTargets_clears productionPlugins [out] (files w)); [| done].
    unfold productionPlugins. set_solve.
  - intros es p Hp. rewrite rollup_rollup_run in Hp.
    cbn [snd files with_files written_by] in Hp.
    split; [by apply removeTargets_keeps in Hp |]. apply Hcov.
    apply (removeTargets_clears dependenciesPlugins [out] (files w)); [| done].
    unfold dependenciesPlugins. set_solve.
  - intros e Herr Hmode p Hp.
    rewrite (script_failed_pass_files oc e w Herr Hmode) in Hp.
    apply elem_of_filter in Hp as [Hc _]. by apply Hcov.
  - apply watchPlugins_no_clear.
  - intros ms. apply watchPass_keeps_files.
Qed.

(** ** Errors *)

(** C8: a failed rebuild in watch mode does not end the process and
    leaves the disk as it was, but the listener of the script has no case
    for the [ERROR] event: the console only shows the notice of the
    started bundle, and the error itself is printed nowhere. *)
Theorem watch_error_not_logged (e : error) (ms : Z) (w : world) :
  let w' := watchPass theWatcher (fails e) ms w in
  console w' = (console w ++ [log [nl +:+ "Found Changes"]])%list
  ∧ ¬ (error_ e ∈ [log [nl +:+ "Found Changes"]])
  ∧ tell {| code := "ERROR"; duration := None; failure := Some e |} w = w
  ∧ files w' = files w
  ∧ exitCode w' = exitCode w
  ∧ watching w' = watching w.
Proof.
  intros w'. subst w'. rewrite watchPass_run. cbv zeta.
  cbn [firstError fails compileError].
  repeat split; try done.
  intros H. apply list_elem_of_singleton in H. discriminate.
Qed.

Lemma productionBuild_value (oc : pass) (w : world) :
  (productionBuild oc w).1 =
    match firstError oc with Some e => Throw e | None => Ok () end.
Proof. rewrite productionBuild_run. cbv zeta. by destruct (firstError oc). Qed.

Lemma errorHandler_fatal (e : error) (w : world) :
  exitCode (errorHandler e w) = Some 1%Z
  ∧ last (console (errorHandler e w)) = Some (error_ e)
  ∧ watching (errorHandler e w) = watching w.
Proof.
  unfold errorHandler. cbn [exitCode console watching process_exit print].
  by rewrite last_snoc.
Qed.

Lemma watchLoop_exited (passes : list (pass * Z)) (w : world) :
  is_Some (exitCode w) → watchLoop passes w = w.
Proof. intros [n Hn]. unfold watchLoop. rewrite Hn. by destruct (watching w). Qed.

(** C9: when the production build, or the dependency pre-bundle of a
    development build, rejects with an error, the script prints that
    error and then exits with status 1; no watcher has been created and
    no rebuild ever runs. *)
Theorem unrecovered_errors_are_fatal (oc : pass) (e : error) (w : world) :
  (if DEV fl then (createDependenciesBundle oc w).1 = Throw e
   else (productionBuild oc w).1 = Throw e) →
  let w' := script oc w in
  (∃ w1, exitCode w1 = exitCode w ∧ w' = process_exit 1 (print (error_ e) w1))
  ∧ exitCode w' = Some 1%Z
  ∧ (1 ≠ 0)%Z
  ∧ last (console w') = Some (error_ e)
  ∧ watching w' = watching w
  ∧ (∀ passes, watchLoop passes w' = w').
Proof.
  intros Hthrow w'.
  assert (∃ w1, w' = errorHandler e w1 ∧ watching w1 = watching w
                ∧ exitCode w1 = exitCode w) as (w1 & Hw' & Hw1 & He1).
  { subst w'. unfold script, catch.
    destruct (banner_frame w) as (_ & Hbe & Hbw).
    destruct (DEV fl).
    - rewrite createDependenciesBundle_value in Hthrow.
      rewrite <- (createDependenciesBundle_value oc (banner w)) in Hthrow.
      destruct (developmentBuild_run oc (banner w)) as (w1 & _ & He & Hw & _ & Hrun).
      destruct (createDependenciesBundle_run oc (banner w)) as (w2 & _ & _ & _ & _ & Hpre).
      rewrite Hpre in Hthrow. rewrite Hrun.
      destruct (entriesResult (dependenciesArr pj)) as [es|e'].
      + cbv zeta in *. destruct (firstError oc) as [e'|]; [| done].
        cbn [fst] in Hthrow. injection Hthrow as ->.
        eexists. split; [done |]. cbn [watching exitCode with_files written_by].
        by rewrite Hw, He.
      + cbn [fst] in Hthrow. injection Hthrow as ->.
        eexists. split; [done |]. by rewrite Hw, He.
    - rewrite productionBuild_value in Hthrow.
      rewrite productionBuild_run. cbv zeta.
      destruct (firstError oc) as [e'|]; [| done]. injection Hthrow as ->.
      eexists. split; [done |].
      by destruct (VERBOSE fl). }
  destruct (errorHandler_fatal e w1) as (He & Hc & Hw).
  rewrite Hw'. split; [by exists w1 |].
  split; [done |]. split; [done |]. split; [done |].
  split; [by rewrite Hw |].
  intros passes. apply watchLoop_exited. rewrite He. by eexists.
Qed.

(** * Further properties of the script *)

(** ** Entries that cannot be joined *)

(** X1: for a package of type "module" whose main field is not a string
    (left out, say), [getEntryPointPath] throws the [TypeError] of
    [path.join], whatever the module field holds; nothing is printed and
    the world is left as it was. *)
Theorem entry_without_main_throws (name : string) (p : Pkg.t) (w : world) :
  require_json (path_join name "package.json") = Ok p →
  Pkg.type p = JS.Str "module" →
  (∀ s, Pkg.main p ≠ JS.Str s) →
  getEntryPointPath name w = (Throw (TypeError "ERR_INVALID_ARG_TYPE"), w)
  ∧ ¬ resolvable name.
Proof.
  intros Hp Htype Hmain.
  assert (Hentry : entryField name p = Pkg.main p).
  { unfold entryField. by rewrite Htype. }
  assert (Hres : entryResult name = Throw (TypeError "ERR_INVALID_ARG_TYPE")).
  { unfold entryResult. rewrite Hp, Hentry.
    destruct (Pkg.main p) as [| |b|n|s|] eqn:E; try done. by destruct (Hmain s). }
  split.
  - by rewrite getEntryPointPath_result, Hres.
  - intros [path Hpath]. by rewrite Hres in Hpath.
Qed.

(** X2: [ManualMap] is an object literal, so for a dependency named after
    a property of [Object.prototype] the lookup [ManualMap[name]] finds
    the inherited value; unless the package is of type "module" or has a
    module field, that value wins over the main field and [path.join]
    throws. *)
Theorem inherited_override_throws (name : string) (p : Pkg.t) (w : world) :
  require_json (path_join name "package.json") = Ok p →
  name ∈ JS.objectPrototype →
  Pkg.type p ≠ JS.Str "module" →
  JS.truthy (Pkg.module p) = false →
  entryField name p = JS.Obj
  ∧ getEntryPointPath name w = (Throw (TypeError "ERR_INVALID_ARG_TYPE"), w).
Proof.
  intros Hp Hname Htype Hmod.
  assert (Hentry : entryField name p = JS.Obj).
  { unfold entryField, JS.or. rewrite strict_eq_str_spec.
    rewrite bool_decide_eq_false_2 by done. rewrite Hmod.
    unfold JS.get, ManualMap. rewrite lookup_empty.
    by rewrite bool_decide_eq_true_2. }
  split; [done |].
  rewrite getEntryPointPath_result. unfold entryResult. by rewrite Hp, Hentry.
Qed.

(** ** The console while the entries resolve *)

Lemma resolve_entries_console (names : list string) (w : world) :
  ∃ w1,
    mapM (λ name, path ← getEntryPointPath name; mret (name, path)) names w
    = (entriesResult names, w1)
    ∧ console w1
      = (console w ++ if VERBOSE fl then usingLine <$> resolvedPrefix names else [])%list
    ∧ files w1 = files w ∧ exitCode w1 = exitCode w ∧ watching w1 = watching w.
Proof.
  revert w. induction names as [|name names IH]; intros w.
  - exists w. cbn [mapM entriesResult resolvedPrefix fmap list_fmap].
    repeat split; try done. destruct (VERBOSE fl); by rewrite app_nil_r.
  - cbn [mapM entriesResult resolvedPrefix]. unfold mbind at 1. unfold M_bind at 1.
    unfold mbind at 1. unfold M_bind at 1. rewrite getEntryPointPath_result.
    destruct (entryResult name) as [path|e].
    + unfold mret at 1. unfold M_ret at 1.
      unfold mbind at 1. unfold M_bind at 1.
      set (w0 := if VERBOSE fl then _ else w).
      destruct (IH w0) as (w1 & -> & Hc & Hf & He & Hw).
      exists w1. rewrite Hc, Hf, He, Hw. subst w0.
      split; [by destruct (entriesResult names) |].
      destruct (VERBOSE fl); cbn [console files exitCode watching print fmap list_fmap];
        repeat split; try done; by rewrite ?app_nil_r, <- ?app_assoc.
    + exists w. repeat split; try done. destruct (VERBOSE fl); by rewrite app_nil_r.
Qed.

Lemma resolvedPrefix_ok (names : list string) (es : list (string * string)) :
  entriesResult names = Ok es → resolvedPrefix names = es.
Proof.
  revert es. induction names as [|name names IH]; intros es H; simpl in *.
  - by injection H as <-.
  - destruct (entryResult name); [| done].
    destruct (entriesResult names) as [es'|]; [| done].
    injection H as <-. f_equal. by apply IH.
Qed.


(** X3: when every dependency resolves, the input of the pre-bundle has
    one entry per dependency, in the order of the manifest, and in
    verbose mode the console gains exactly one "Using" line per
    dependency, in that order; without the verbose flag it gains nothing.
    The disk is not touched. *)
Theorem resolution_log (names : list string) (w : world) :
  (∀ name, name ∈ names → resolvable name) →
  ∃ es w1,
    mapM (λ name, path ← getEntryPointPath name; mret (name, path)) names w
    = (Ok es, w1)
    ∧ es.*1 = names
    ∧ (∀ name path, (name, path) ∈ es → entryResult name = Ok path)
    ∧ console w1 = (console w ++ if VERBOSE fl then usingLine <$> es else [])%list
    ∧ files w1 = files w.
Proof.
  intros Hres. destruct (entriesResult_resolvable _ Hres) as [es Hes].
  destruct (resolve_entries_console names w) as (w1 & Hrun & Hc & Hf & _).
  exists es, w1. rewrite Hrun, Hes, Hc, (resolvedPrefix_ok _ _ Hes).
  repeat split; try done.
  - by apply entriesResult_names.
  - clear Hrun Hc Hres. revert es Hes.
    induction names as [|x names IH]; intros es Hes name path Hin; simpl in Hes.
    + injection Hes as <-. by apply elem_of_nil in Hin.
    + destruct (entryResult x) as [px|] eqn:Hx; [| done].
      destruct (entriesResult names) as [es'|]; [| done].
      injection Hes as <-. apply elem_of_cons in Hin as [Heq | Hin].
      * by injection Heq as -> ->.
      * by apply (IH es' eq_refl).
Qed.

(** ** The console of an invocation *)

Lemma banner_console (w : world) :
  console (banner w)
  = (console w ++ log [esc +:+ "c"]
       :: if VERBOSE fl then
            [log [ "Current Configuration:" +:+ nl;
                   " Development Mode - " +:+ showBool (DEV fl) +:+ nl;
                   " Typescript Mode - " +:+ showBool (typescriptMode fl) +:+ nl;
                   " Source Entry Point - " +:+ sourceEntryPoint +:+ nl ]]
          else [])%list.
Proof.
  unfold banner. destruct (VERBOSE fl); cbn [console print]; by rewrite <- ?app_assoc.
Qed.

(** X4: the "Typescript Mode" the verbose banner reports is the type
    check the build of the application bundle really applies, in both
    modes and for every combination of flags; without the verbose flag
    the banner is the terminal reset alone. *)
Theorem banner_reports_type_check (w : world) :
  console (banner w)
  = (console w ++ log [esc +:+ "c"]
       :: if VERBOSE fl then
            [log [ "Current Configuration:" +:+ nl;
                   " Development Mode - " +:+ showBool (DEV fl) +:+ nl;
                   " Typescript Mode - " +:+ showBool staticTypeCheck +:+ nl;
                   " Source Entry Point - " +:+ root (main pj) +:+ nl ]]
          else [])%list.
Proof. rewrite banner_console. by rewrite staticTypeCheck_mode. Qed.

(** The development build with its console. *)
Lemma developmentBuild_trace (oc : pass) (w : world) :
  ∃ w',
    developmentBuild oc w
    = (match prebundleResult oc with Ok _ => Ok () | Throw e => Throw e end, w')
    ∧ console w'
      = (console w
         ++ (if VERBOSE fl then [log ["Started Development Build"]] else [])
         ++ time "Created Dependencies Bundle"
            :: (if VERBOSE fl then usingLine <$> resolvedPrefix (dependenciesArr pj) else [])
         ++ match prebundleResult oc with
            | Throw _ => []
            | Ok _ =>
                timeEnd "Created Dependencies Bundle"
                :: if VERBOSE fl then [log [nl +:+ "Starting Watch Mode"]] else []
            end)%list
    ∧ exitCode w' = exitCode w
    ∧ watching w'
      = match prebundleResult oc with
        | Ok _ => Some theWatcher
        | Throw _ => watching w
        end.
Proof.
  unfold developmentBuild, createDependenciesBundle, startWatchMode, prebundleResult.
  unfold mbind, M_bind.
  unfold when, console_log, console_time, console_timeEnd, create, act, mret, M_ret.
  destruct (VERBOSE fl) eqn:Hv;
    match goal with
    | |- context [mapM ?f ?l ?w0] =>
        destruct (resolve_entries_console l w0) as (w1 & Hrun & Hc & _ & He & Hw)
    end;
    unfold mbind, M_bind, mret, M_ret in Hrun; rewrite Hrun; rewrite Hv in Hc;
    (destruct (entriesResult (dependenciesArr pj)) as [es|e];
     [ rewrite rollup_rollup_run; destruct (compileError oc);
       [ | rewrite bundle_write_run; destruct (writeError oc) ] | ]);
    eexists; (split; [reflexivity |]);
    cbn [console exitCode watching print with_files watch_with written_by];
    rewrite ?Hc, ?He, ?Hw; cbn [console exitCode watching print with_files];
    (repeat split; try done);
    rewrite <- ?app_assoc; cbn [app]; by rewrite ?app_nil_r.
Qed.


(** X5: what a production invocation prints: after the banner, the
    verbose notice of the start, the start of the timer, and then either
    the end of the timer, when the pass succeeded, or the error, after
    which the process exits with status 1; the completion is never
    reported for a failed build. *)
Theorem production_console (oc : pass) (w : world) :
  DEV fl = false →
  console (script oc w)
  = (console (banner w)
     ++ (if VERBOSE fl then [log ["Started Production Build"]] else [])
     ++ time "Completed Production Build"
        :: match firstError oc with
           | None => [timeEnd "Completed Production Build"]
           | Some e => [error_ e]
           end)%list
  ∧ exitCode (script oc w)
    = match firstError oc with None => exitCode w | Some _ => Some 1%Z end.
Proof.
  intros Hdev. unfold script, catch. rewrite Hdev, productionBuild_run. cbv zeta.
  destruct (banner_frame w) as (_ & He & _).
  destruct (firstError oc), (VERBOSE fl);
    cbn [errorHandler console exitCode process_exit print with_files written_by];
    rewrite <- ?app_assoc, ?He; done.
Qed.

(** X6: what a development invocation prints up to the start of the
    watcher: after the banner, the verbose notice of the start, the start
    of the timer, in verbose mode one "Using" line for each dependency
    resolved before the first that fails, and then either the end of the
    timer and the verbose notice of the watch mode, when the pre-bundle
    succeeded, or its error, after which the process exits with 1. *)
Theorem development_console (oc : pass) (w : world) :
  DEV fl = true →
  console (script oc w)
  = (console (banner w)
     ++ (if VERBOSE fl then [log ["Started Development Build"]] else [])
     ++ time "Created Dependencies Bundle"
        :: (if VERBOSE fl then usingLine <$> resolvedPrefix (dependenciesArr pj) else [])
     ++ match prebundleResult oc with
        | Throw e => [error_ e]
        | Ok _ =>
            timeEnd "Created Dependencies Bundle"
            :: if VERBOSE fl then [log [nl +:+ "Starting Watch Mode"]] else []
        end)%list
  ∧ exitCode (script oc w)
    = match prebundleResult oc with Ok _ => exitCode w | Throw _ => Some 1%Z end.
Proof.
  intros Hdev. unfold script, catch. rewrite Hdev.
  destruct (developmentBuild_trace oc (banner w)) as (w' & -> & Hc & He & _).
  destruct (banner_frame w) as (_ & Hbe & _).
  destruct (prebundleResult oc);
    cbn [errorHandler console exitCode process_exit print];
    rewrite Hc, ?He, ?Hbe; (split; [| done]);
    rewrite <- ?app_assoc; cbn [app]; by rewrite <- ?app_assoc, ?app_nil_r.
Qed.


(** ** The disk outside and inside the output directory *)

Lemma bundle_under_build (p : string) :
  p ∈ ({[ in_dir (root "public/build") "bundle.js";
          in_dir (root "public/build") "bundle.js.map" ]} : gset string) →
  under (root "public/build") p = true.
Proof.
  intros H. apply elem_of_union in H as [H | H];
    apply elem_of_singleton in H as ->; apply in_dir_under.
Qed.

Lemma dependency_dir (f : string) :
  in_dir (root "public/build/dependencies") f
  = in_dir (root "public/build") ("dependencies/" +:+ f).
Proof. unfold in_dir, root. by rewrite !append_assoc. Qed.

Lemma dependency_under_build (es : list (string * string)) (p : string) :
  p ∈ outputFiles (chunkNames (Named (JS.fromEntries es))) dependenciesOutput →
  under (root "public/build") p = true.
Proof.
  intros H. apply dependency_outputs in H as (name & _ & [-> | ->]);
    rewrite dependency_dir; apply in_dir_under.
Qed.

(** Every file a pass of the script writes lies under [public/build]. *)
Lemma wrote_under_build (io : inputOptions) (oo : outputOptions) (oc : pass) (p : string) :
  (io = productionInput ∧ oo = productionOutput)
  ∨ (io = watchInput ∧ oo = watchOutput)
  ∨ (∃ es, io = dependenciesInput es ∧ oo = dependenciesOutput) →
  p ∈ wrote (writing (bundled io) oo oc) →
  under (root "public/build") p = true.
Proof.
  intros Hio Hp. cbn [wrote writing bundled entryChunks] in Hp.
  apply elem_of_union in Hp as [Hp | Hp].
  - destruct Hio as [[-> ->] | [[-> ->] | (es & -> & ->)]].
    + cbn [input productionInput chunkNames] in Hp. rewrite production_outputs in Hp.
      by apply bundle_under_build.
    + cbn [input watchInput chunkNames] in Hp. rewrite watch_outputs in Hp.
      by apply bundle_under_build.
    + by apply (dependency_under_build es).
  - apply elem_of_emittedFiles in Hp as (f & _ & ->).
    destruct Hio as [[-> ->] | [[-> ->] | (es & -> & ->)]];
      cbn [dir productionOutput watchOutput dependenciesOutput];
      rewrite ?dependency_dir; apply in_dir_under.
Qed.

Lemma production_wrote_under (oc : pass) (p : string) :
  p ∈ wrote (writing (bundled productionInput) productionOutput oc) →
  under (root "public/build") p = true.
Proof using cmd pj pkgdir. apply wrote_under_build. eauto. Qed.

Lemma watch_wrote_under (oc : pass) (p : string) :
  p ∈ wrote (writing (bundled watchInput) watchOutput oc) →
  under (root "public/build") p = true.
Proof. apply wrote_under_build. eauto. Qed.

Lemma dependencies_wrote_under (es : list (string * string)) (oc : pass) (p : string) :
  p ∈ wrote (writing (bundled (dependenciesInput es)) dependenciesOutput oc) →
  under (root "public/build") p = true.
Proof using cmd pj pkgdir. apply wrote_under_build. eauto. Qed.

Lemma outside_kept (fs : gset string) (p : string) :
  outside p →
  (p ∈ filter (λ f, covered [root "public/build"] f = false) fs ↔ p ∈ fs).
Proof.
  intros [Hne Hu]. rewrite elem_of_filter. split; [by intros [_ H] |].
  intros H. split; [| done]. simpl. rewrite Hu.
  apply String.eqb_neq in Hne. rewrite String.eqb_sym in Hne. by rewrite Hne.
Qed.

Lemma script_outside (oc : pass) (w : world) (p : string) :
  outside p → (p ∈ files (script oc w) ↔ p ∈ files w).
Proof.
  intros Hout. destruct (banner_frame w) as (Hbf & _ & _).
  unfold script, catch. destruct (DEV fl).
  - destruct (developmentBuild_run oc (banner w)) as (w1 & Hf & _ & _ & _ & ->).
    destruct (entriesResult (dependenciesArr pj)) as [es|e].
    + cbv zeta. destruct (firstError oc).
      * cbn [errorHandler files process_exit print with_files written_by].
        by rewrite Hf, outside_kept, Hbf.
      * destruct (VERBOSE fl); cbn [files watch_with print with_files written_by];
          rewrite elem_of_union, Hf, outside_kept, Hbf by done;
          (split; [intros [H | H]; [done |] | by left]);
          apply dependencies_wrote_under in H;
          destruct Hout as [_ Hu]; congruence.
    + cbn [errorHandler files process_exit print]. by rewrite Hf, outside_kept, Hbf.
  - rewrite productionBuild_run. cbv zeta. destruct (firstError oc).
    + destruct (VERBOSE fl); cbn [errorHandler files process_exit print with_files written_by];
        by rewrite outside_kept, Hbf.
    + destruct (VERBOSE fl); cbn [files print with_files written_by];
        rewrite elem_of_union, outside_kept, Hbf by done;
        (split; [intros [H | H]; [done |] | by left]);
        apply production_wrote_under in H;
        destruct Hout as [_ Hu]; congruence.
Qed.

Lemma script_watching (oc : pass) (w : world) :
  watching (script oc w) = watching w ∨ watching (script oc w) = Some theWatcher.
Proof.
  destruct (banner_frame w) as (_ & _ & Hbw).
  unfold script, catch. destruct (DEV fl).
  - destruct (developmentBuild_trace oc (banner w)) as (w1 & -> & _ & _ & Hw).
    destruct (prebundleResult oc).
    + by right.
    + left. cbn [errorHandler watching process_exit print]. by rewrite Hw.
  - left. rewrite productionBuild_run. cbv zeta.
    destruct (firstError oc), (VERBOSE fl);
      cbn [errorHandler watching process_exit print with_files written_by]; done.
Qed.

Lemma passes_outside (passes : list (pass * Z)) (w : world) (p : string) :
  outside p →
  (p ∈ files (foldl (λ w pm, watchPass theWatcher pm.1 pm.2 w) w passes) ↔ p ∈ files w).
Proof.
  intros Hout. revert w. induction passes as [|[oc ms] passes IH]; intros w; [done |].
  cbn [foldl fst snd]. rewrite IH, watchPass_run. cbv zeta.
  destruct (firstError oc); cbn [files print with_files written_by]; [done |].
  rewrite elem_of_union.
  split; [intros [H | H]; [done |] | by left].
  apply watch_wrote_under in H. destruct Hout as [_ Hu]. congruence.
Qed.

(** X8: no invocation of the script, in either mode, whatever the passes
    meet and however many rebuilds follow, removes or creates a file
    outside the output directory [public/build]. *)
Theorem files_outside_output_untouched (oc : pass) (passes : list (pass * Z))
    (w : world) (p : string) :
  watching w = None →
  p ≠ root "public/build" →
  under (root "public/build") p = false →
  (p ∈ files (watchLoop passes (script oc w)) ↔ p ∈ files w).
Proof.
  intros Hfresh Hne Hu. assert (Hout : outside p) by done.
  rewrite <- (script_outside oc w p Hout).
  unfold watchLoop. destruct (script_watching oc w) as [Hw | Hw]; rewrite Hw.
  - by rewrite Hfresh.
  - destruct (exitCode (script oc w)); [done |]. by apply passes_outside.
Qed.


(** ** The rebuilds of the watcher *)

Lemma watchPass_console (oc : pass) (ms : Z) (w : world) :
  console (watchPass theWatcher oc ms w) = (console w ++ passLines (oc, ms))%list.
Proof.
  rewrite watchPass_run. cbv zeta. unfold passLines. cbn [fst snd].
  destruct (firstError oc); cbn [console print with_files written_by]; [done |].
  by rewrite <- app_assoc.
Qed.

(** X10: the rebuilds never end the process and never replace the
    watcher, however many of them fail; for each rebuild the script
    prints the notice of the found changes, followed by the notice of the
    completion with the duration exactly when the rebuild succeeded, and
    nothing else. *)
Theorem watch_loop_trace (passes : list (pass * Z)) (w : world) :
  watching w = Some theWatcher →
  exitCode w = None →
  let w' := watchLoop passes w in
  exitCode w' = None
  ∧ watching w' = Some theWatcher
  ∧ console w' = (console w ++ (passes ≫= passLines))%list.
Proof.
  intros Hw He w'. subst w'. unfold watchLoop. rewrite Hw, He.
  destruct (passes_frame passes w) as [-> ->].
  split; [done |]. split; [done |].
  clear Hw He. revert w. induction passes as [|[oc ms] passes IH]; intros w.
  - cbn. by rewrite app_nil_r.
  - cbn [foldl fst snd]. rewrite IH, watchPass_console.
    cbn [mbind list_bind]. by rewrite <- app_assoc.
Qed.




(** X12: once a rebuild has succeeded, [bundle.js] and its map are on
    the disk and stay there through all later rebuilds, failed or not: a
    failed rebuild leaves the last good bundle in place. *)
Theorem bundle_survives_failed_rebuilds (before after : list (pass * Z))
    (oc : pass) (ms : Z) (w : world) :
  watching w = Some theWatcher →
  exitCode w = None →
  firstError oc = None →
  let w' := watchLoop (before ++ (oc, ms) :: after) w in
  in_dir (root "public/build") "bundle.js" ∈ files w'
  ∧ in_dir (root "public/build") "bundle.js.map" ∈ files w'.
Proof.
  intros Hw He Hok w'. subst w'. unfold watchLoop. rewrite Hw, He.
  rewrite foldl_app. cbn [foldl fst snd].
  set (w0 := foldl _ w before).
  assert (Hb : {[ in_dir (root "public/build") "bundle.js";
                  in_dir (root "public/build") "bundle.js.map" ]}
               ⊆ files (watchPass theWatcher oc ms w0)).
  { rewrite watchPass_run, Hok. cbv zeta.
    cbn [files print with_files written_by wrote writing bundled entryChunks
         watchInput input chunkNames].
    rewrite watch_outputs. set_solve. }
  pose proof (passes_keep_files after (watchPass theWatcher oc ms w0)) as Hkeep.
  split; apply Hkeep, Hb; set_solve.
Qed.

Lemma not_covered (p : string) :
  covered [root "public/build"] p = false →
  p ≠ root "public/build" ∧ under (root "public/build") p = false.
Proof.
  simpl. rewrite orb_false_r. intros H. apply orb_false_iff in H as [Hne Hu].
  split; [| done]. intros ->. by rewrite String.eqb_refl in Hne.
Qed.

(** X13: the [clear] plugins remove [public/build] when the script
    calls them, which in the development build is before the
    dependencies are resolved: an invocation that ends with exit status
    1, whatever failed (a dependency that does not resolve, the
    compilation, the writing of the bundle), leaves nothing under the
    output directory, and creates no file. *)
Theorem failed_invocation_clears_output (oc : pass) (w : world) (p : string) :
  exitCode w = None →
  exitCode (script oc w) = Some 1%Z →
  p ∈ files (script oc w) →
  p ∈ files w ∧ p ≠ root "public/build" ∧ under (root "public/build") p = false.
Proof.
  intros Hlive. destruct (banner_frame w) as (Hbf & Hbe & _).
  unfold script, catch. destruct (DEV fl).
  - destruct (developmentBuild_run oc (banner w)) as (w1 & Hf & He & _ & _ & ->).
    destruct (entriesResult (dependenciesArr pj)) as [es|e]; [destruct (firstError oc) |].
    + cbn [errorHandler files process_exit print]. rewrite Hf, Hbf.
      intros _ H. apply elem_of_filter in H as [Hc H]. split; [done | by apply not_covered].
    + cbv zeta. destruct (VERBOSE fl);
        cbn [exitCode watch_with print written_by]; by rewrite He, Hbe, Hlive.
    + cbn [errorHandler files process_exit print]. rewrite Hf, Hbf.
      intros _ H. apply elem_of_filter in H as [Hc H]. split; [done | by apply not_covered].
  - rewrite productionBuild_run. cbv zeta. destruct (firstError oc).
    + destruct (VERBOSE fl);
        cbn [errorHandler files process_exit print with_files]; rewrite Hbf;
        intros _ H; apply elem_of_filter in H as [Hc H];
        (split; [done | by apply not_covered]).
    + destruct (VERBOSE fl);
        cbn [exitCode print with_files written_by]; by rewrite Hbe, Hlive.
Qed.

End Script.

(** ** The table of served paths, as a function of the manifest *)

(** C5: the table of served paths is a function of the declared
    dependency names alone; its keys are exactly those names, each name
    is taken to the relative path [dependencies/<name>.js] (written
    [./dependencies/<name>.js]), distinct names get distinct paths, and
    an empty manifest gives the empty table. *)
Theorem path_table_injective (pj pj' : project) :
  (dependenciesArr pj' = dependenciesArr pj → pathTable pj' = pathTable pj)
  ∧ (∀ k, k ∈ dependenciesArr pj →
          pathTable pj !! k = Some ("./" +:+ "dependencies/" +:+ k +:+ ".js"))
  ∧ (∀ k v, pathTable pj !! k = Some v → k ∈ dependenciesArr pj)
  ∧ (∀ k1 k2 v, pathTable pj !! k1 = Some v → pathTable pj !! k2 = Some v → k1 = k2)
  ∧ (dependenciesArr pj = [] → pathTable pj = ∅).
Proof.
  split; [| split; [| split; [| split]]].
  - intros H. unfold pathTable. by rewrite H.
  - intros k Hk. rewrite pathTable_lookup.
    rewrite (bool_decide_eq_true_2 _ Hk). reflexivity.
  - intros k v H. rewrite pathTable_lookup in H. by case_bool_decide.
  - intros k1 k2 v H1 H2. rewrite pathTable_lookup in H1, H2.
    repeat case_bool_decide; try done.
    injection H1 as <-. apply (inj Some) in H2.
    apply (String.app_inj "./dependencies/") in H2.
    by apply append_inj_r in H2.
  - intros H. unfold pathTable. by rewrite H.
Qed.

Lemma path_table_injective_witness :
  pathTable Sample.pj !! "lib-a" = Some "./dependencies/lib-a.js"
  ∧ pathTable Sample.pj !! "lib-b" = Some "./dependencies/lib-b.js".
Proof.
  destruct (path_table_injective Sample.pj Sample.pj) as (_ & H & _).
  split; apply H; unfold dependenciesArr; simpl; set_solver.
Defined.

(** ** The sample project at work *)

(** C1, as stated, fails: for [{main: "a.js", module: "b.js", type:
    "module"}] the script takes the main field, "a.js". *)
Lemma entry_point_esm_counterexample :
  entryField "lib-a" Sample.esmPackage = JS.Str "a.js"
  ∧ entryField "lib-a" Sample.esmPackage ≠ JS.Str "b.js"
  ∧ (getEntryPointPath Sample.path_join Sample.require_resolve Sample.require_json
       Sample.development "lib-a" Sample.world0).1
    = Ok "/app/node_modules/lib-a/a.js".
Proof. repeat split; [discriminate]. Qed.

Lemma entry_point_first_match_witness :
  getEntryPointPath Sample.path_join Sample.require_resolve Sample.require_json
    Sample.development "lib-b" Sample.world0
  = (Ok "/app/node_modules/lib-b/a.js", Sample.world0)
  ∧ ∃ s, firstMatch "lib-b" Sample.cjsPackage = JS.Str s
         ∧ (s = "a.js" ∨ Pkg.module Sample.cjsPackage = JS.Str s).
Proof.
  destruct (entry_point_first_match Sample.path_join Sample.require_resolve
              Sample.require_json Sample.development "lib-b" Sample.cjsPackage
              Sample.world0 eq_refl) as (_ & Hrun & Htotal & _).
  split.
  - rewrite Hrun. reflexivity.
  - apply Htotal; [reflexivity | by left |].
    unfold JS.objectPrototype. set_solver.
Defined.

(** C2, as stated, fails: [--dev] without a type-check flag builds the
    application bundle without the TypeScript plugin. *)
Lemma static_type_check_counterexample :
  argTS Sample.development = None
  ∧ DEV (yargs Sample.development) = true
  ∧ staticTypeCheck Sample.pkgdir Sample.development = false
  ∧ typescriptMode (yargs Sample.development) = false.
Proof. repeat split. Qed.

Lemma static_type_check_default_witness :
  staticTypeCheck Sample.pkgdir Sample.production = true
  ∧ staticTypeCheck Sample.pkgdir Sample.development = false.
Proof.
  split.
  - by apply (static_type_check_default Sample.pkgdir Sample.production).
  - by apply (static_type_check_default Sample.pkgdir Sample.development).
Defined.

Lemma sample_resolvable (name : string) :
  name ∈ dependenciesArr Sample.pj →
  resolvable Sample.path_join Sample.require_resolve Sample.require_json name.
Proof.
  intros H. unfold dependenciesArr in H. simpl in H.
  apply elem_of_cons in H as [-> | H]; [by eexists |].
  apply list_elem_of_singleton in H as ->. by eexists.
Qed.

Lemma development_build_layout_witness :
  let w1 := script Sample.pkgdir Sample.path_join Sample.require_resolve
              Sample.require_json Sample.pj Sample.development Sample.splitting
              Sample.world0 in
  let w2 := watchLoop [(fails Sample.syntaxError, 7%Z); (succeeds, 12%Z)] w1 in
  "/app/public/build/dependencies/lib-a.js" ∈ files w2
  ∧ "/app/public/build/dependencies/lib-b.js" ∈ files w2
  ∧ ∃ rebuilt,
      writes w2 = (writes w1 ++ rebuilt)%list
      ∧ length rebuilt = 1
      ∧ ∀ wr, wr ∈ rebuilt →
          renderImport (by_input wr) (by_output wr) "lib-a"
          = Imported "./dependencies/lib-a.js".
Proof.
  intros w1 w2.
  destruct (development_build_layout Sample.pkgdir Sample.path_join
              Sample.require_resolve Sample.require_json Sample.pj Sample.development
              Sample.splitting [(fails Sample.syntaxError, 7%Z); (succeeds, 12%Z)]
              Sample.world0 eq_refl sample_resolvable eq_refl eq_refl)
    as ((pre & _ & _ & Hin) & (rebuilt & Hwr & Hlen & Hall)).
  assert (Ha : "lib-a" ∈ dependenciesArr Sample.pj) by (apply list_elem_of_here).
  assert (Hb : "lib-b" ∈ dependenciesArr Sample.pj)
    by (apply list_elem_of_further, list_elem_of_here).
  destruct (Hin "lib-a" Ha) as (_ & _ & _ & _ & Hjs_a & _).
  destruct (Hin "lib-b" Hb) as (_ & _ & _ & _ & Hjs_b & _).
  split; [exact Hjs_a |]. split; [exact Hjs_b |].
  exists rebuilt. split; [exact Hwr |]. split; [exact Hlen |].
  intros wr Hin_wr. destruct (Hall wr Hin_wr) as (_ & _ & Hpaths). exact (Hpaths "lib-a" Ha).
Defined.

Lemma env_marker_only_in_prebundle_witness :
  let w1 := script Sample.pkgdir Sample.path_join Sample.require_resolve
              Sample.require_json Sample.pj Sample.development succeeds Sample.world0 in
  let w2 := watchLoop [(fails Sample.syntaxError, 7%Z); (succeeds, 12%Z)] w1 in
  (∃ pre,
     writes w1 = [pre]
     ∧ "/app/public/build/dependencies/lib-a.js" ∈ wrote pre
     ∧ replacement "process.env.NODE_ENV" (plugins (by_input pre))
       = Some (quoted "development"))
  ∧ ∃ rebuilt,
      writes w2 = (writes w1 ++ rebuilt)%list
      ∧ length rebuilt = 1
      ∧ ∀ wr, wr ∈ rebuilt →
          replacement "process.env.NODE_ENV" (plugins (by_input wr)) = None.
Proof.
  intros w1 w2.
  destruct (env_marker_only_in_prebundle Sample.pkgdir Sample.path_join
              Sample.require_resolve Sample.require_json Sample.pj Sample.development
              succeeds [(fails Sample.syntaxError, 7%Z); (succeeds, 12%Z)]
              Sample.world0 eq_refl sample_resolvable eq_refl eq_refl)
    as ((pre & Hpre & Hin & Hrep) & (rebuilt & Hwr & Hlen & Hall)).
  split.
  - exists pre. split; [exact Hpre |]. split; [| exact Hrep].
    exact (Hin "lib-a" (list_elem_of_here _ _)).
  - exists rebuilt. split; [exact Hwr |]. split; [exact Hlen |].
    intros wr Hin_wr. destruct (Hall wr Hin_wr) as (_ & _ & Hnone). apply Hnone.
Defined.

(** C6, as stated, fails: for an application with a dynamically imported
    page rollup splits a chunk off, and the production build writes the
    chunk's file next to [bundle.js] and [bundle.js.map]. *)
Lemma production_chunks_counterexample :
  let w' := script Sample.pkgdir Sample.path_join Sample.require_resolve
              Sample.require_json Sample.pj Sample.production Sample.splitting
              Sample.world0 in
  "/app/public/build/page-3f2a9c.js" ∈ files w'
  ∧ under "/app/public/build" "/app/public/build/page-3f2a9c.js" = true
  ∧ "/app/public/build/page-3f2a9c.js" ≠ "/app/public/build/bundle.js"
  ∧ "/app/public/build/page-3f2a9c.js" ≠ "/app/public/build/bundle.js.map"
  ∧ exitCode w' = None.
Proof.
  intros w'. split; [| repeat split; discriminate].
  subst w'.
  rewrite (production_files Sample.pkgdir Sample.path_join Sample.require_resolve
             Sample.require_json Sample.pj Sample.production Sample.splitting
             Sample.world0 eq_refl eq_refl).
  apply elem_of_union_r, elem_of_union_r, elem_of_emittedFiles.
  exists "page-3f2a9c.js". split; [apply list_elem_of_here | reflexivity].
Qed.

Lemma splitting_flat (f : string) :
  f ∈ emitted Sample.splitting → String.prefix "dependencies/" f = false.
Proof.
  intros H. apply elem_of_cons in H as [-> | H]; [reflexivity |].
  apply list_elem_of_singleton in H as ->. reflexivity.
Qed.

Lemma production_writes_bundle_only_witness :
  let w' := script Sample.pkgdir Sample.path_join Sample.require_resolve
              Sample.require_json Sample.pj Sample.production Sample.splitting
              Sample.world0 in
  "/app/public/build/bundle.js" ∈ files w'
  ∧ "/app/public/build/bundle.js.map" ∈ files w'
  ∧ (∀ p, p ∈ files w' → under "/app/public/build/dependencies" p = false)
  ∧ ∃ wr, writes w' = [wr] ∧ ∀ m, renderImport (by_input wr) (by_output wr) m = Inlined.
Proof.
  intros w'.
  destruct (production_writes_bundle_only Sample.pkgdir Sample.path_join
              Sample.require_resolve Sample.require_json Sample.pj Sample.production
              Sample.splitting Sample.world0 eq_refl eq_refl)
    as (Hexact & _ & Hdeps & (wr & Hwr & _ & _ & _ & Hin) & _).
  split; [apply (Hexact "/app/public/build/bundle.js" eq_refl); by left |].
  split; [apply (Hexact "/app/public/build/bundle.js.map" eq_refl); right; by left |].
  split; [exact (Hdeps splitting_flat) |].
  exists wr. split; [exact Hwr | exact Hin].
Defined.

(** C7, as stated, fails: a rebuild of the watcher does not clear the
    output directory; an artifact of an earlier build is still there
    after a rebuild. *)
Lemma watch_rebuild_counterexample :
  let wt := theWatcher Sample.pkgdir Sample.pj Sample.development in
  under (dir (watchOutput Sample.pkgdir Sample.pj)) Sample.stale = true
  ∧ Sample.stale ∈ files Sample.world0
  ∧ Sample.stale ∈ files (watchPass wt succeeds 12 Sample.world0)
  ∧ Sample.stale ∈ files (watchPass wt (fails Sample.syntaxError) 12 Sample.world0)
  ∧ existsb isClear (plugins (w_input wt)) = false.
Proof.
  intros wt. split; [reflexivity |].
  assert (H0 : Sample.stale ∈ files Sample.world0) by (simpl; set_solver).
  split; [exact H0 |].
  split; [by apply watchPass_keeps_files |].
  split; [by apply watchPass_keeps_files | reflexivity].
Qed.

Lemma clearing_passes_witness :
  let failed := script Sample.pkgdir Sample.path_join Sample.require_resolve
                  Sample.require_json Sample.pj Sample.production
                  (fails Sample.syntaxError) Sample.world0 in
  firstError (fails Sample.syntaxError) = Some Sample.syntaxError
  ∧ (∀ p, p ∈ files failed → under "/app/public/build" p = false)
  ∧ Sample.stale ∉ files failed.
Proof.
  intros failed.
  destruct (clearing_passes Sample.pkgdir Sample.path_join Sample.require_resolve
              Sample.require_json Sample.pj Sample.production
              (fails Sample.syntaxError) Sample.world0) as (_ & _ & Hfail & _).
  specialize (Hfail Sample.syntaxError eq_refl (or_introl eq_refl)).
  split; [reflexivity |]. split; [exact Hfail |].
  intros Hin. by apply Hfail in Hin.
Defined.

Lemma unrecovered_errors_are_fatal_witness :
  let w' := script Sample.pkgdir Sample.path_join Sample.require_resolve
              Sample.require_json Sample.pj Sample.development
              (fails Sample.syntaxError) Sample.world0 in
  (createDependenciesBundle Sample.pkgdir Sample.path_join Sample.require_resolve
     Sample.require_json Sample.pj Sample.development
     (fails Sample.syntaxError) Sample.world0).1 = Throw Sample.syntaxError
  ∧ exitCode w' = Some 1%Z
  ∧ last (console w') = Some (error_ Sample.syntaxError)
  ∧ watching w' = None.
Proof.
  intros w'.
  assert (Hthrow :
    (createDependenciesBundle Sample.pkgdir Sample.path_join Sample.require_resolve
       Sample.require_json Sample.pj Sample.development
       (fails Sample.syntaxError) Sample.world0).1 = Throw Sample.syntaxError).
  { by rewrite createDependenciesBundle_value. }
  destruct (unrecovered_errors_are_fatal Sample.pkgdir Sample.path_join
              Sample.require_resolve Sample.require_json Sample.pj Sample.development
              (fails Sample.syntaxError) Sample.syntaxError Sample.world0 Hthrow)
    as (_ & He & _ & Hc & Hw & _).
  split; [exact Hthrow |]. split; [exact He |]. split; [exact Hc | exact Hw].
Defined.

(** ** The further properties on the sample projects *)

Lemma entry_without_main_throws_witness :
  getEntryPointPath Sample.path_join Sample.require_resolve Broken.require_json
    Broken.verbose "lib-a" Sample.world0
  = (Throw (TypeError "ERR_INVALID_ARG_TYPE"), Sample.world0).
Proof.
  apply (entry_without_main_throws Sample.path_join Sample.require_resolve
           Broken.require_json Broken.verbose "lib-a" Broken.moduleOnly Sample.world0);
    [reflexivity | reflexivity | discriminate].
Defined.

Lemma inherited_override_throws_witness :
  getEntryPointPath Sample.path_join Sample.require_resolve Broken.require_json
    Broken.verbose "constructor" Sample.world0
  = (Throw (TypeError "ERR_INVALID_ARG_TYPE"), Sample.world0).
Proof.
  apply (inherited_override_throws Sample.path_join Sample.require_resolve
           Broken.require_json Broken.verbose "constructor" Sample.cjsPackage
           Sample.world0);
    [reflexivity | apply list_elem_of_here | discriminate | reflexivity].
Defined.

Lemma resolution_log_witness :
  ∃ w1,
    mapM (λ name, path ← getEntryPointPath Sample.path_join Sample.require_resolve
                            Sample.require_json Broken.verbose name; mret (name, path))
         ["lib-a"; "lib-b"] Sample.world0
    = (Ok [("lib-a", "/app/node_modules/lib-a/a.js");
           ("lib-b", "/app/node_modules/lib-b/a.js")], w1)
    ∧ console w1
      = [log ["Using lib-a:"; "/app/node_modules/lib-a/a.js"];
         log ["Using lib-b:"; "/app/node_modules/lib-b/a.js"]].
Proof.
  destruct (resolution_log Sample.path_join Sample.require_resolve Sample.require_json
              Broken.verbose ["lib-a"; "lib-b"] Sample.world0 sample_resolvable)
    as (es & w1 & Hrun & _ & _ & Hc & _).
  exists w1. rewrite Hc. rewrite Hrun.
  assert (es = [("lib-a", "/app/node_modules/lib-a/a.js");
                ("lib-b", "/app/node_modules/lib-b/a.js")]) as ->.
  { apply (f_equal fst) in Hrun. cbn in Hrun. by injection Hrun as <-. }
  split; reflexivity.
Defined.

Lemma production_console_witness :
  console (script Sample.pkgdir Sample.path_join Sample.require_resolve
             Sample.require_json Sample.pj Sample.production
             (fails Sample.syntaxError) Sample.world0)
  = [log [esc +:+ "c"]; time "Completed Production Build"; error_ Sample.syntaxError].
Proof.
  rewrite (proj1 (production_console Sample.pkgdir Sample.path_join
                    Sample.require_resolve Sample.require_json Sample.pj
                    Sample.production (fails Sample.syntaxError) Sample.world0 eq_refl)).
  reflexivity.
Defined.

Lemma development_console_witness :
  console (script Sample.pkgdir Sample.path_join Sample.require_resolve
             Sample.require_json Sample.pj Sample.development succeeds Sample.world0)
  = [log [esc +:+ "c"]; time "Created Dependencies Bundle";
     timeEnd "Created Dependencies Bundle"].
Proof.
  rewrite (proj1 (development_console Sample.pkgdir Sample.path_join
                    Sample.require_resolve Sample.require_json Sample.pj
                    Sample.development succeeds Sample.world0 eq_refl)).
  reflexivity.
Defined.



Lemma failed_invocation_clears_output_witness :
  let w' := script Sample.pkgdir Sample.path_join Sample.require_resolve
              Broken.require_json Broken.pj Broken.verbose succeeds Sample.world0 in
  exitCode w' = Some 1%Z
  ∧ ∀ p, p ∈ files w' → under "/app/public/build" p = false.
Proof.
  intros w'.
  assert (He : exitCode w' = Some 1%Z) by reflexivity.
  split; [exact He |]. intros p Hp.
  by destruct (failed_invocation_clears_output Sample.pkgdir Sample.path_join
                 Sample.require_resolve Broken.require_json Broken.pj Broken.verbose
                 succeeds Sample.world0 p eq_refl He Hp) as (_ & _ & Hu).
Defined.

Lemma files_outside_output_untouched_witness :
  "/app/public/index.html"
  ∈ files (watchLoop [(fails Sample.syntaxError, 7%Z); (succeeds, 12%Z)]
             (script Sample.pkgdir Sample.path_join Sample.require_resolve
                Sample.require_json Sample.pj Sample.development succeeds
                (with_files (λ fs, {[ "/app/public/index.html" ]} ∪ fs) Sample.world0))).
Proof.
  apply (files_outside_output_untouched Sample.pkgdir Sample.path_join
           Sample.require_resolve Sample.require_json Sample.pj Sample.development);
    [reflexivity | discriminate | reflexivity |].
  cbn [files with_files written_by]. apply elem_of_union_l. by apply elem_of_singleton.
Defined.


Lemma watch_loop_trace_witness :
  let w := watch_with (theWatcher Sample.pkgdir Sample.pj Sample.development)
             Sample.world0 in
  let w' := watchLoop [(fails Sample.syntaxError, 7%Z); (succeeds, 12%Z)] w in
  exitCode w' = None
  ∧ console w'
    = [log [nl +:+ "Found Changes"]; log [nl +:+ "Found Changes"];
       log ["Completed build: 12ms"]].
Proof.
  intros w w'.
  destruct (watch_loop_trace Sample.pkgdir Sample.pj Sample.development
              [(fails Sample.syntaxError, 7%Z); (succeeds, 12%Z)] w eq_refl eq_refl)
    as (He & _ & Hc).
  split; [exact He |]. subst w'. rewrite Hc. reflexivity.
Defined.



Lemma bundle_survives_failed_rebuilds_witness :
  "/app/public/build/bundle.js"
  ∈ files (watchLoop [(succeeds, 12%Z); (fails Sample.syntaxError, 7%Z)]
             (watch_with (theWatcher Sample.pkgdir Sample.pj Sample.development)
                Sample.world0)).
Proof.
  apply (bundle_survives_failed_rebuilds Sample.pkgdir Sample.pj Sample.development
           [] [(fails Sample.syntaxError, 7%Z)] succeeds 12%Z
           (watch_with (theWatcher Sample.pkgdir Sample.pj Sample.development)
              Sample.world0)
           eq_refl eq_refl eq_refl).
Defined.
